(** * The Yosys script refinement loop of [yosys_loop_agent.py]

    A shallow embedding of the generate / execute / evaluate loop and of the
    script extraction it relies on, with the properties of the loop proved
    over it.

    Modelling conventions.
    - A Python [str] is a list of 8-bit code points ([list ascii], read as
      Latin-1); [str.strip] and [str.lower] are Python's on that range.
    - The state dictionary is a record with one optional field per key of
      [YosysAgentState]: [None] means the key is absent, so that the
      ["key" not in state] tests and the [KeyError] of a failed lookup are
      both represented.
    - The language model, the temporary-file layer and the [yosys]
      subprocess are outside the program: they are answers indexed by the
      number of the call ([Env]), and the calls made so far and the
      temporary files present are recorded in a [World].
    - The compiled graph is a transition function on configurations
      (node to run next, state, world); [run_yosys_script_loop] follows
      the edges for a given number of node executions, and [graph_invoke]
      adds the recursion limit of the graph library, as a parameter. *)

From Stdlib Require Import List Bool Arith ZArith Lia Ascii String.
From Stdlib Require Import Numbers.DecimalString.
Import ListNotations.

(** ** Python strings *)

Module PyStr.

Definition str := list ascii.

(** String literals of the source. *)
Definition py (s : string) : str := list_ascii_of_string s.

Definition newline : ascii := ascii_of_nat 10.

(** [str.isspace] on one code point below 256. *)
Definition isspace (c : ascii) : bool :=
  let n := nat_of_ascii c in
  ((9 <=? n) && (n <=? 13)) || ((28 <=? n) && (n <=? 32))
  || (n =? 133) || (n =? 160).

(** [str.lower] on one code point below 256. *)
Definition lower_char (c : ascii) : ascii :=
  let n := nat_of_ascii c in
  if ((65 <=? n) && (n <=? 90))
     || ((192 <=? n) && (n <=? 222) && negb (n =? 215))
  then ascii_of_nat (n + 32) else c.

Definition lower (s : str) : str := map lower_char s.

Fixpoint lstrip (s : str) : str :=
  match s with
  | [] => []
  | c :: s' => if isspace c then lstrip s' else s
  end.

Definition rstrip (s : str) : str := rev (lstrip (rev s)).

(** [s.strip()] *)
Definition strip (s : str) : str := lstrip (rstrip s).

(** [s.startswith(p)] *)
Fixpoint startswith (p s : str) : bool :=
  match p, s with
  | [], _ => true
  | _ :: _, [] => false
  | a :: p', b :: s' => Ascii.eqb a b && startswith p' s'
  end.

(** [sub in s] *)
Fixpoint contains (sub s : str) : bool :=
  startswith sub s ||
  match s with
  | [] => false
  | _ :: s' => contains sub s'
  end.

(** [s.split('\n')] *)
Fixpoint split_nl (s : str) : list str :=
  match s with
  | [] => [[]]
  | c :: s' =>
      if Ascii.eqb c newline then [] :: split_nl s'
      else match split_nl s' with
           | l :: ls => (c :: l) :: ls
           | [] => [[c]]
           end
  end.

(** ['\n'.join(ls)] *)
Fixpoint join_nl (ls : list str) : str :=
  match ls with
  | [] => []
  | [l] => l
  | l :: ls' => l ++ newline :: join_nl ls'
  end.

(** Truth value of a string or of a list: non-empty. *)
Definition truthy {A} (l : list A) : bool :=
  match l with [] => false | _ :: _ => true end.

(** [str(n)] for an integer. *)
Definition str_of_int (z : Z) : str := py (NilEmpty.string_of_int (Z.to_int z)).

End PyStr.
Import PyStr.

(** ** [extract_script_from_text] *)

Definition yosys_commands : list str :=
  map py ["read_verilog"; "read_sdc"; "synth"; "write_verilog"; "write_json";
          "stat"; "opt"; "hierarchy"; "flatten"; "show"; "abc"; "write_edif"]%string.

Definition skip_words : list str :=
  map py ["here's"; "to generate"; "you can"; "step"; "note:"; "key points:";
          "make sure"; "adjust"; "if you"; "for example"]%string.

(** [any(w in line.lower() for w in words)] *)
Definition any_in_lower (words : list str) (line : str) : bool :=
  existsb (fun w => contains w (lower line)) words.

(** The test the source applies to a trimmed line before keeping it:
    a comment, or a line that mentions a Yosys command. *)
Definition looks_like_command (line : str) : bool :=
  startswith (py "#") line || any_in_lower yosys_commands line.

Record Scan := mkScan {
  in_code_block : bool;
  in_script_section : bool;
  script_lines : list str
}.

(** One turn of the first [for line in lines] loop. *)
Definition scan_line (sc : Scan) (raw : str) : Scan :=
  let line := strip raw in
  if startswith (py "```") line then
    mkScan (negb (in_code_block sc)) (in_script_section sc) (script_lines sc)
  else if contains (py "yosys synthesis script") (lower line)
          || contains (py "here's the") (lower line) then
    mkScan (in_code_block sc) true (script_lines sc)
  else if any_in_lower skip_words line then sc
  else if (in_code_block sc || in_script_section sc) && truthy line then
    if looks_like_command line
    then mkScan (in_code_block sc) (in_script_section sc) (script_lines sc ++ [line])
    else sc
  else sc.

(** The second loop, run when the first kept nothing. *)
Definition fallback_lines (lines : list str) : list str :=
  filter looks_like_command (map strip lines).

Definition extract_script_from_text (text : str) : str :=
  let lines := split_nl text in
  let found := script_lines (fold_left scan_line lines (mkScan false false [])) in
  let found := if truthy found then found else fallback_lines lines in
  strip (join_nl found).

(** ** The state dictionary *)

(** The values the code stores under ["feedback"]: ["success"],
    ["failure"], ["timeout"], ["error"], ["max_iterations_reached"]. *)
Inductive Feedback :=
| Success | Failure | Timeout | Error | MaxIterationsReached.

(** What a prompt is made of; the wording of the two templates of
    [generate_yosys_script] is not modelled, the values interpolated into
    them are. *)
Inductive Content :=
| Text (s : str)
| FirstPrompt (verilog sdc output : str)
| RefinePrompt (last_script last_log : option str)
               (error_details verilog sdc output : str).

Inductive Message :=
| SystemMessage (content : Content)
| HumanMessage (content : Content)
| AIMessage (content : str).

Definition system_prompt : Content :=
  Text (py "You are an expert Yosys synthesis tool assistant. Generate and refine Yosys scripts until they execute successfully. Always return ONLY the Yosys commands without any explanations, markdown formatting, or additional text.").

Definition corrective_prompt : Content :=
  Text (py "Please generate a valid Yosys script with proper commands like read_verilog, synth, write_verilog, etc.").

(** [YosysAgentState].  The outer [option] of a field is the presence of
    its key; [last_script], [last_execution_log] and [feedback] may hold
    Python's [None], which is their inner [option]. *)
Record YosysAgentState := mkState {
  verilog_path : option str;
  sdc_path : option str;
  iteration : option Z;
  max_iterations : option Z;
  current_script : option str;
  last_script : option (option str);
  execution_log : option str;
  last_execution_log : option (option str);
  feedback : option (option Feedback);
  game_over : option bool;
  message_history : option (list Message);
  output_file : option str;
  error_details : option str
}.

Definition set_iteration v s :=
  mkState (verilog_path s) (sdc_path s) (Some v) (max_iterations s)
    (current_script s) (last_script s) (execution_log s)
    (last_execution_log s) (feedback s) (game_over s) (message_history s)
    (output_file s) (error_details s).
Definition set_max_iterations v s :=
  mkState (verilog_path s) (sdc_path s) (iteration s) (Some v)
    (current_script s) (last_script s) (execution_log s)
    (last_execution_log s) (feedback s) (game_over s) (message_history s)
    (output_file s) (error_details s).
Definition set_current_script v s :=
  mkState (verilog_path s) (sdc_path s) (iteration s) (max_iterations s)
    (Some v) (last_script s) (execution_log s)
    (last_execution_log s) (feedback s) (game_over s) (message_history s)
    (output_file s) (error_details s).
Definition set_last_script v s :=
  mkState (verilog_path s) (sdc_path s) (iteration s) (max_iterations s)
    (current_script s) (Some v) (execution_log s)
    (last_execution_log s) (feedback s) (game_over s) (message_history s)
    (output_file s) (error_details s).
Definition set_execution_log v s :=
  mkState (verilog_path s) (sdc_path s) (iteration s) (max_iterations s)
    (current_script s) (last_script s) (Some v)
    (last_execution_log s) (feedback s) (game_over s) (message_history s)
    (output_file s) (error_details s).
Definition set_last_execution_log v s :=
  mkState (verilog_path s) (sdc_path s) (iteration s) (max_iterations s)
    (current_script s) (last_script s) (execution_log s)
    (Some v) (feedback s) (game_over s) (message_history s)
    (output_file s) (error_details s).
Definition set_feedback v s :=
  mkState (verilog_path s) (sdc_path s) (iteration s) (max_iterations s)
    (current_script s) (last_script s) (execution_log s)
    (last_execution_log s) (Some v) (game_over s) (message_history s)
    (output_file s) (error_details s).
Definition set_game_over v s :=
  mkState (verilog_path s) (sdc_path s) (iteration s) (max_iterations s)
    (current_script s) (last_script s) (execution_log s)
    (last_execution_log s) (feedback s) (Some v) (message_history s)
    (output_file s) (error_details s).
Definition set_message_history v s :=
  mkState (verilog_path s) (sdc_path s) (iteration s) (max_iterations s)
    (current_script s) (last_script s) (execution_log s)
    (last_execution_log s) (feedback s) (game_over s) (Some v)
    (output_file s) (error_details s).
Definition set_output_file v s :=
  mkState (verilog_path s) (sdc_path s) (iteration s) (max_iterations s)
    (current_script s) (last_script s) (execution_log s)
    (last_execution_log s) (feedback s) (game_over s) (message_history s)
    (Some v) (error_details s).
Definition set_error_details v s :=
  mkState (verilog_path s) (sdc_path s) (iteration s) (max_iterations s)
    (current_script s) (last_script s) (execution_log s)
    (last_execution_log s) (feedback s) (game_over s) (message_history s)
    (output_file s) (Some v).

(** [if "key" not in state: state["key"] = v] *)
Definition setdefault {A} (field : YosysAgentState -> option A)
    (set : A -> YosysAgentState -> YosysAgentState) (v : A)
    (s : YosysAgentState) : YosysAgentState :=
  match field s with
  | None => set v s
  | Some _ => s
  end.

(** ** [os.path] (POSIX) *)

(** [p.rfind(c) + 1]: the length of the prefix of [p] that ends with the
    last [c], 0 when [c] does not occur. *)
Fixpoint after_last (c : ascii) (p : str) : nat :=
  match p with
  | [] => 0
  | a :: p' =>
      match after_last c p' with
      | 0 => if Ascii.eqb a c then 1 else 0
      | S k => S (S k)
      end
  end.

(** [os.path.basename] *)
Definition basename (p : str) : str := skipn (after_last "/"%char p) p.

(** The first component of [os.path.splitext]: the extension starts at the
    last dot that follows the last slash, unless only dots stand between
    the two. *)
Definition splitext_root (p : str) : str :=
  let sep := after_last "/"%char p in
  let dot := after_last "."%char p in
  if sep <? dot then
    if forallb (Ascii.eqb "."%char) (firstn (dot - 1 - sep) (skipn sep p))
    then p else firstn (dot - 1) p
  else p.

(** ** [initialize_yosys_game] *)

(** The guard of the last [if]: the key is absent and the Verilog path is
    present and non-empty. *)
Definition derives_output_file (s : YosysAgentState) : bool :=
  match output_file s, verilog_path s with
  | None, Some p => truthy p
  | _, _ => false
  end.

Definition initialize_yosys_game (s : YosysAgentState) : YosysAgentState :=
  let s := setdefault iteration set_iteration 0%Z s in
  let s := setdefault max_iterations set_max_iterations 5%Z s in
  let s := setdefault feedback set_feedback None s in
  let s := setdefault game_over set_game_over false s in
  let s := setdefault current_script set_current_script [] s in
  let s := setdefault last_script set_last_script None s in
  let s := setdefault execution_log set_execution_log [] s in
  let s := setdefault last_execution_log set_last_execution_log None s in
  let s := setdefault error_details set_error_details [] s in
  let s := setdefault message_history set_message_history
             [SystemMessage system_prompt] s in
  if derives_output_file s then
    match verilog_path s with
    | Some p =>
        set_output_file
          (splitext_root (basename p) ++ py "_synthesized_netlist.v") s
    | None => s
    end
  else s.

(** ** The world outside the program *)

(** Exceptions that leave the inner [try] of [execute_yosys_script] and
    reach its outer handlers. *)
Inductive OuterExn :=
| FileNotFoundError
| OtherException (msg : str).

(** [tempfile.NamedTemporaryFile(..., delete=False)] followed by the write
    and the close of the [with] block. *)
Inductive TempResult :=
| TempWritten
| TempFailed (e : OuterExn).

(** [subprocess.run(['yosys', path], check=True, timeout=60)]: completion
    with exit status 0, or one of the exceptions. *)
Inductive RunResult :=
| Completed (stdout stderr : str)
| TimeoutExpired
| CalledProcessError (returncode : Z) (stdout stderr : str)
| RunFailed (e : OuterExn).

(** Answers of the collaborators, by number of the call (from 0). *)
Record Env := mkEnv {
  llm_invoke : nat -> str;
  temp_file : nat -> TempResult;
  subprocess_run : nat -> RunResult
}.

(** Calls made so far, and the temporary script files that exist, each
    with its content; the file of the [n]-th execution is named [n]. *)
Record World := mkWorld {
  llm_calls : nat;
  exec_calls : nat;
  tmp_files : list (nat * str)
}.

(** [os.unlink(path)] *)
Definition unlink (path : nat) (files : list (nat * str)) : list (nat * str) :=
  filter (fun f => negb (fst f =? path)) files.

(** ** Exceptions of the program itself *)

Inductive Result (A : Type) :=
| Ok (a : A)
| KeyError (key : string).
Arguments Ok {A} a.
Arguments KeyError {A} key.

Definition bind {A B} (r : Result A) (k : A -> Result B) : Result B :=
  match r with
  | Ok a => k a
  | KeyError key => KeyError key
  end.

Notation "x <- r ;; k" := (bind r (fun x => k))
  (at level 61, r at next level, right associativity).

(** [state["key"]] *)
Definition lookup {A} (key : string) (field : option A) : Result A :=
  match field with
  | Some v => Ok v
  | None => KeyError key
  end.

(** ** The nodes of the graph *)

Definition generate_yosys_script (env : Env) (s : YosysAgentState) (w : World)
  : Result (YosysAgentState * World) :=
  let s := initialize_yosys_game s in
  it <- lookup "iteration" (iteration s) ;;
  prompt <-
    (if (it =? 0)%Z then
       vp <- lookup "verilog_path" (verilog_path s) ;;
       sp <- lookup "sdc_path" (sdc_path s) ;;
       out <- lookup "output_file" (output_file s) ;;
       Ok (FirstPrompt vp sp out)
     else
       ls <- lookup "last_script" (last_script s) ;;
       ll <- lookup "last_execution_log" (last_execution_log s) ;;
       ed <- lookup "error_details" (error_details s) ;;
       vp <- lookup "verilog_path" (verilog_path s) ;;
       sp <- lookup "sdc_path" (sdc_path s) ;;
       out <- lookup "output_file" (output_file s) ;;
       Ok (RefinePrompt ls ll ed vp sp out)) ;;
  mh <- lookup "message_history" (message_history s) ;;
  let mh := mh ++ [HumanMessage prompt] in
  let response := llm_invoke env (llm_calls w) in
  let w := mkWorld (S (llm_calls w)) (exec_calls w) (tmp_files w) in
  let mh := mh ++ [AIMessage response] in
  let script := extract_script_from_text response in
  if truthy script then
    let s := set_message_history mh s in
    let s := set_current_script script s in
    it <- lookup "iteration" (iteration s) ;;
    Ok (set_iteration (it + 1)%Z s, w)
  else
    Ok (set_message_history (mh ++ [HumanMessage corrective_prompt]) s, w).

(** The two outer handlers of [execute_yosys_script]. *)
Definition handle_outer (e : OuterExn) (s : YosysAgentState) : YosysAgentState :=
  match e with
  | FileNotFoundError =>
      let s := set_feedback (Some Error) s in
      let s := set_execution_log
                 (py "Yosys tool is not installed or not in PATH. Please install Yosys first.") s in
      let s := set_error_details (py "Yosys not found") s in
      set_game_over true s
  | OtherException msg =>
      let s := set_feedback (Some Error) s in
      let s := set_execution_log (py "Error running Yosys tool: " ++ msg) s in
      let s := set_error_details msg s in
      set_game_over true s
  end.

(** The [try] block of [execute_yosys_script]: the script is written to a
    fresh temporary file, [yosys] is run on it, and the three inner
    branches remove the file. *)
Definition try_execute (env : Env) (s : YosysAgentState) (w : World)
  : YosysAgentState * list (nat * str) :=
  let n := exec_calls w in
  match temp_file env n with
  | TempFailed e => (handle_outer e s, tmp_files w)
  | TempWritten =>
      match current_script s with
      | None =>
          (handle_outer (OtherException (py "'current_script'")) s,
           (n, []) :: tmp_files w)
      | Some script =>
          let files := (n, script) :: tmp_files w in
          match subprocess_run env n with
          | Completed out err =>
              let files := unlink n files in
              let s := set_feedback (Some Success) s in
              let s := set_game_over true s in
              let log := py "Yosys execution completed successfully!"
                         ++ newline :: newline :: py "STDOUT:" ++ newline :: out
                         ++ [newline] in
              let log := if truthy err
                         then log ++ py "STDERR:" ++ newline :: err ++ [newline]
                         else log in
              (set_execution_log log s, files)
          | TimeoutExpired =>
              let files := unlink n files in
              let s := set_feedback (Some Timeout) s in
              let s := set_execution_log
                         (py "Yosys execution timed out after 60 seconds") s in
              (set_error_details (py "Script execution timed out") s, files)
          | CalledProcessError rc out err =>
              let files := unlink n files in
              let s := set_feedback (Some Failure) s in
              let s := set_execution_log
                         (py "Yosys execution failed with return code "
                          ++ str_of_int rc ++ newline :: newline :: py "STDOUT:"
                          ++ newline :: out ++ newline :: py "STDERR:"
                          ++ newline :: err ++ [newline]) s in
              (set_error_details
                 (py "Return code: " ++ str_of_int rc ++ py ", Error: " ++ err) s,
               files)
          | RunFailed e => (handle_outer e s, files)
          end
      end
  end.

Definition execute_yosys_script (env : Env) (s : YosysAgentState) (w : World)
  : Result (YosysAgentState * World) :=
  let '(s, files) := try_execute env s w in
  let w := mkWorld (llm_calls w) (S (exec_calls w)) files in
  cs <- lookup "current_script" (current_script s) ;;
  let s := set_last_script (Some cs) s in
  log <- lookup "execution_log" (execution_log s) ;;
  Ok (set_last_execution_log (Some log) s, w).

Definition is_success (f : option Feedback) : bool :=
  match f with Some Success => true | _ => false end.

Definition evaluate_execution (s : YosysAgentState) : Result YosysAgentState :=
  fb <- lookup "feedback" (feedback s) ;;
  if is_success fb then Ok (set_game_over true s)
  else
    it <- lookup "iteration" (iteration s) ;;
    mx <- lookup "max_iterations" (max_iterations s) ;;
    if (it >=? mx)%Z then
      Ok (set_feedback (Some MaxIterationsReached) (set_game_over true s))
    else Ok s.

(** ** The graph *)

Inductive Node :=
| generate_node | execute_node | evaluate_node | END.

Definition should_continue_yosys (s : YosysAgentState) : Result Node :=
  go <- lookup "game_over" (game_over s) ;;
  Ok (if go : bool then END else generate_node).

Record Config := mkConfig {
  node : Node;
  state : YosysAgentState;
  world : World
}.

(** One node is run and the edge out of it is followed; a finished run
    stays where it is. *)
Definition step (env : Env) (c : Config) : Result Config :=
  match node c with
  | generate_node =>
      r <- generate_yosys_script env (state c) (world c) ;;
      Ok (mkConfig execute_node (fst r) (snd r))
  | execute_node =>
      r <- execute_yosys_script env (state c) (world c) ;;
      Ok (mkConfig evaluate_node (fst r) (snd r))
  | evaluate_node =>
      s <- evaluate_execution (state c) ;;
      next <- should_continue_yosys s ;;
      Ok (mkConfig next s (world c))
  | END => Ok c
  end.

Fixpoint steps (env : Env) (n : nat) (c : Config) : Result Config :=
  match n with
  | 0 => Ok c
  | S n' => c' <- step env c ;; steps env n' c'
  end.

(** ** [run_yosys_script_loop] *)

Definition initial_state (verilog sdc : str) (limit : Z) : YosysAgentState :=
  mkState (Some verilog) (Some sdc) (Some 0%Z) (Some limit) (Some [])
    (Some None) (Some []) (Some None) (Some None) (Some false) (Some [])
    (Some []) (Some []).

Definition no_world : World := mkWorld 0 0 [].

Definition start (verilog sdc : str) (limit : Z) : Config :=
  mkConfig generate_node (initial_state verilog sdc limit) no_world.

(** The configuration reached from the entry point after [n] transitions. *)
Definition run_yosys_script_loop (env : Env) (verilog sdc : str) (limit : Z)
    (n : nat) : Result Config :=
  steps env n (start verilog sdc limit).

(** ** Vocabulary of the properties *)

(** A line qualifies when it starts with [#] or when one of the Yosys
    command keywords occurs in its lower-cased form. *)
Definition Qualifies (line : str) : Prop :=
  (exists rest, line = "#"%char :: rest) \/
  (exists cmd pre post, In cmd yosys_commands /\ lower line = pre ++ cmd ++ post).

(** No white space at the start, at the end. *)
Definition no_lead (s : str) : Prop :=
  match s with
  | [] => True
  | c :: _ => isspace c = false
  end.

Definition no_trail (s : str) : Prop := no_lead (rev s).

(** The list of lines that [extract_script_from_text] joins. *)
Definition kept_lines (text : str) : list str :=
  let lines := split_nl text in
  let found := script_lines (fold_left scan_line lines (mkScan false false [])) in
  if truthy found then found else fallback_lines lines.


(** A kept line is a command line, without line break, trimmed. *)
Definition well_kept (l : str) : Prop :=
  looks_like_command l = true /\ ~ In newline l /\ no_lead l /\ no_trail l.


(** ** Vocabulary of the loop properties *)

Arguments extract_script_from_text : simpl never.
Arguments py : simpl never.
Arguments str_of_int : simpl never.
Arguments unlink : simpl never.

Definition present {A} (o : option A) : bool :=
  match o with Some _ => true | None => false end.

(** Every key of the dictionary is there. *)
Definition full (s : YosysAgentState) : bool :=
  present (verilog_path s) && present (sdc_path s) && present (iteration s)
  && present (max_iterations s) && present (current_script s)
  && present (last_script s) && present (execution_log s)
  && present (last_execution_log s) && present (feedback s)
  && present (game_over s) && present (message_history s)
  && present (output_file s) && present (error_details s).

(** The [k]-th answer of the language model holds a script. *)
Definition usable (env : Env) (k : nat) : bool :=
  truthy (extract_script_from_text (llm_invoke env k)).

Fixpoint usable_count (env : Env) (n : nat) : nat :=
  match n with
  | 0 => 0
  | S k => usable_count env k + (if usable env k then 1 else 0)
  end.

Fixpoint unusable_count (env : Env) (n : nat) : nat :=
  match n with
  | 0 => 0
  | S k => unusable_count env k + (if usable env k then 0 else 1)
  end.

(** The feedback that the [n]-th execution stores, for a state that holds
    a current script. *)
Definition feedback_of (env : Env) (n : nat) : Feedback :=
  match temp_file env n with
  | TempFailed _ => Error
  | TempWritten =>
      match subprocess_run env n with
      | Completed _ _ => Success
      | TimeoutExpired => Timeout
      | CalledProcessError _ _ _ => Failure
      | RunFailed _ => Error
      end
  end.

(** The same, in the three classes of outcome of the specification. *)
Inductive Outcome := ExecSuccess | ExecRecoverable | ExecFatal.

Definition outcome (env : Env) (n : nat) : Outcome :=
  match feedback_of env n with
  | Success => ExecSuccess
  | Failure | Timeout => ExecRecoverable
  | Error | MaxIterationsReached => ExecFatal
  end.

(** The [n]-th execution wrote its file and then left through an outer
    handler. *)
Definition leaves_file (env : Env) (n : nat) : bool :=
  match temp_file env n, subprocess_run env n with
  | TempWritten, RunFailed _ => true
  | _, _ => false
  end.

(** What [evaluate_execution] makes of a feedback [f] at iteration [it]. *)
Definition evaluated (f : Feedback) (it limit : Z) : Feedback :=
  match f with
  | Success => Success
  | _ => if (it >=? limit)%Z then MaxIterationsReached else f
  end.

(** The loop stops after the evaluation of [f] at iteration [it]. *)
Definition stops (f : Feedback) (it limit : Z) : bool :=
  match f with
  | Success | Error => true
  | _ => (it >=? limit)%Z
  end.

Definition ends_loop (f : option (option Feedback)) : bool :=
  match f with
  | Some (Some Success) | Some (Some Error) => true
  | _ => false
  end.

Definition from_execution (f : option (option Feedback)) : bool :=
  match f with
  | Some (Some Success) | Some (Some Error)
  | Some (Some Failure) | Some (Some Timeout) => true
  | _ => false
  end.

(** What holds of every configuration of a run started by
    [run_yosys_script_loop] with the limit [limit]. *)
Definition node_inv (env : Env) (limit : Z) (c : Config) : Prop :=
  let s := state c in
  let w := world c in
  let it := Z.of_nat (usable_count env (llm_calls w)) in
  match node c with
  | generate_node =>
      game_over s = Some false /\ exec_calls w = llm_calls w
      /\ (llm_calls w = 0 \/ (it < limit)%Z)
  | execute_node =>
      game_over s = Some false /\ llm_calls w = S (exec_calls w)
      /\ (llm_calls w = 1 \/ (it <= limit)%Z)
  | evaluate_node =>
      game_over s = Some (ends_loop (feedback s))
      /\ from_execution (feedback s) = true
      /\ exec_calls w = llm_calls w
      /\ (llm_calls w = 1 \/ (it <= limit)%Z)
  | END =>
      game_over s = Some true /\ exec_calls w = llm_calls w
      /\ (llm_calls w = 1 \/ (it <= limit)%Z)
  end.

Definition Inv (env : Env) (limit : Z) (c : Config) : Prop :=
  full (state c) = true
  /\ max_iterations (state c) = Some limit
  /\ output_file (state c) = Some []
  /\ iteration (state c)
     = Some (Z.of_nat (usable_count env (llm_calls (world c))))
  /\ Forall (fun f => fst f < exec_calls (world c)) (tmp_files (world c))
  /\ node_inv env limit c.

(** The round limit is reached in [s]. *)
Definition limit_reached (s : YosysAgentState) : Prop :=
  exists it mx, iteration s = Some it /\ max_iterations s = Some mx /\ (it >= mx)%Z.

(** Collaborators used to run the loop on concrete inputs. *)
Definition answers (l : list str) (k : nat) : str := nth k l (py "synth").

Definition env_succeeding : Env :=
  mkEnv (answers []) (fun _ => TempWritten) (fun _ => Completed (py "ok") []).

Definition env_failing (l : list str) : Env :=
  mkEnv (answers l) (fun _ => TempWritten)
        (fun _ => CalledProcessError 1 [] (py "ERROR: syntax error")).

Definition env_no_yosys : Env :=
  mkEnv (answers []) (fun _ => TempWritten) (fun _ => RunFailed FileNotFoundError).

(** Two failures, then success. *)
Definition env_third_time : Env :=
  mkEnv (answers []) (fun _ => TempWritten)
        (fun k => if k <? 2 then CalledProcessError 1 [] [] else Completed [] []).

Ltac open_full H :=
  unfold full in H; simpl in H;
  repeat match type of H with
         | context [present ?o] => destruct o; simpl in H; [|discriminate H]
         end.

Ltac open_config c H :=
  let nd := fresh "nd" in
  let s := fresh "s" in
  let w := fresh "w" in
  destruct c as [nd s w];
  destruct s as [vp sp it mx cs ls el ll fb go mh out ed];
  destruct w as [llm exe files];
  destruct H as (Hfull & Hmx & Hout & Hit & Hfresh & Hnode);
  simpl in Hmx, Hout, Hit, Hfresh;
  open_full Hfull; clear Hfull;
  injection Hmx as Hmx; injection Hout as Hout; injection Hit as Hit;
  subst.

(** ** Further vocabulary *)

(** [a] is [b] with some elements left out, the order kept. *)
Inductive subseq {A : Type} : list A -> list A -> Prop :=
| subseq_nil : subseq [] []
| subseq_skip : forall x l1 l2, subseq l1 l2 -> subseq l1 (x :: l2)
| subseq_keep : forall x l1 l2, subseq l1 l2 -> subseq (x :: l1) (x :: l2).

(** The two tests of the first loop of [extract_script_from_text] that
    change its flags: a code fence, a script section marker. *)
Definition is_fence (line : str) : bool := startswith (py "```") line.

Definition is_section_marker (line : str) : bool :=
  contains (py "yosys synthesis script") (lower line)
  || contains (py "here's the") (lower line).

(** What the first loop of [extract_script_from_text] keeps. *)
Definition first_pass (text : str) : list str :=
  script_lines (fold_left scan_line (split_nl text) (mkScan false false [])).

(** The value of a key, or a default when the key is absent. *)
Definition or_default {A} (d : A) (o : option A) : A :=
  match o with Some v => v | None => d end.

(** The output file name that [initialize_yosys_game] derives from a
    Verilog path. *)
Definition derived_output_file (p : str) : str :=
  splitext_root (basename p) ++ py "_synthesized_netlist.v".

(** Every key present in [s] is present in [s'] with the same value. *)
Definition extends (s s' : YosysAgentState) : Prop :=
  (forall v, verilog_path s = Some v -> verilog_path s' = Some v)
  /\ (forall v, sdc_path s = Some v -> sdc_path s' = Some v)
  /\ (forall v, iteration s = Some v -> iteration s' = Some v)
  /\ (forall v, max_iterations s = Some v -> max_iterations s' = Some v)
  /\ (forall v, current_script s = Some v -> current_script s' = Some v)
  /\ (forall v, last_script s = Some v -> last_script s' = Some v)
  /\ (forall v, execution_log s = Some v -> execution_log s' = Some v)
  /\ (forall v, last_execution_log s = Some v -> last_execution_log s' = Some v)
  /\ (forall v, feedback s = Some v -> feedback s' = Some v)
  /\ (forall v, game_over s = Some v -> game_over s' = Some v)
  /\ (forall v, message_history s = Some v -> message_history s' = Some v)
  /\ (forall v, output_file s = Some v -> output_file s' = Some v)
  /\ (forall v, error_details s = Some v -> error_details s' = Some v).

(** ** The report of [run_yosys_script_loop] *)

(** The three verdicts that the function prints under [FINAL RESULTS]. *)
Inductive Verdict :=
| ReportSuccess (iterations : Z) (output : str)
| ReportMaxIterations (limit : Z)
| ReportError (f : option Feedback).

Definition final_verdict (s : YosysAgentState) : Result Verdict :=
  fb <- lookup "feedback" (feedback s) ;;
  match fb with
  | Some Success =>
      it <- lookup "iteration" (iteration s) ;;
      out <- lookup "output_file" (output_file s) ;;
      Ok (ReportSuccess it out)
  | Some MaxIterationsReached =>
      mx <- lookup "max_iterations" (max_iterations s) ;;
      Ok (ReportMaxIterations mx)
  | _ => Ok (ReportError fb)
  end.

(** What a run remembers of its last execution, by node. *)
Definition last_execution (env : Env) (limit : Z) (c : Config) : Prop :=
  match node c with
  | generate_node | execute_node => tmp_files (world c) = []
  | evaluate_node =>
      exists k script,
        exec_calls (world c) = S k
        /\ feedback (state c) = Some (Some (feedback_of env k))
        /\ tmp_files (world c)
           = (if leaves_file env k then [(k, script)] else [])
  | END =>
      exists k it script,
        exec_calls (world c) = S k
        /\ iteration (state c) = Some it
        /\ feedback (state c)
           = Some (Some (evaluated (feedback_of env k) it limit))
        /\ stops (feedback_of env k) it limit = true
        /\ tmp_files (world c)
           = (if leaves_file env k then [(k, script)] else [])
  end.

(** ** The message history and its report *)

(** One of the two prompts built from a template, as opposed to a fixed
    text. *)
Definition is_prompt (c : Content) : bool :=
  match c with Text _ => false | _ => true end.

(** The history after [n] calls of the language model, in a run started
    with an empty history: for each call the prompt and the answer, and
    the corrective message after an answer without script. *)
Fixpoint history_ok (env : Env) (n : nat) (h : list Message) : Prop :=
  match n with
  | 0 => h = []
  | S k =>
      exists h0 p,
        history_ok env k h0 /\ is_prompt p = true
        /\ h = h0 ++ [HumanMessage p; AIMessage (llm_invoke env k)]
                  ++ (if usable env k then [] else [HumanMessage corrective_prompt])
  end.

(** [content.startswith("Please generate")]; the two templates start with
    ["Generate a Yosys synthesis script"] and ["The previous Yosys script
    failed"]. *)
Definition starts_with_please (c : Content) : bool :=
  match c with
  | Text s => startswith (py "Please generate") s
  | FirstPrompt _ _ _ | RefinePrompt _ _ _ _ _ _ => false
  end.

(** A block printed under [SCRIPT GENERATION HISTORY], with the number of
    its heading. *)
Inductive Entry :=
| Request (label : nat) (c : Content)
| GeneratedScript (label : nat) (s : str).

Definition label (e : Entry) : nat :=
  match e with Request l _ | GeneratedScript l _ => l end.

(** The loop over [enumerate(final_state["message_history"])], from the
    index [i]. *)
Fixpoint history_report_from (i : nat) (h : list Message) : list Entry :=
  match h with
  | [] => []
  | m :: h' =>
      (match m with
       | HumanMessage c =>
           if starts_with_please c then [] else [Request (i / 2 + 1) c]
       | AIMessage s => [GeneratedScript (i / 2 + 1) s]
       | SystemMessage _ => []
       end) ++ history_report_from (S i) h'
  end.

Definition history_report (h : list Message) : list Entry :=
  history_report_from 0 h.

(** The answers of the language model recorded in a history. *)
Definition ai_contents (h : list Message) : list str :=
  flat_map (fun m => match m with AIMessage s => [s] | _ => [] end) h.

Definition is_system (m : Message) : bool :=
  match m with SystemMessage _ => true | _ => false end.

(** The numbers of the two headings printed for the call number [k] of
    the language model, the request and the generated script: the index of
    a message is twice the number of earlier calls plus the number of
    earlier answers without script. *)
Definition labels_of_call (env : Env) (k : nat) : list nat :=
  [(2 * k + unusable_count env k) / 2 + 1;
   (2 * k + unusable_count env k + 1) / 2 + 1].

(** The script extracted from the most recent of the first [n] answers of
    the language model that held one; the empty script when none did. *)
Fixpoint latest_script (env : Env) (n : nat) : str :=
  match n with
  | 0 => []
  | S k => if usable env k then extract_script_from_text (llm_invoke env k)
           else latest_script env k
  end.

(** The last execution has been recorded: [last_script] and
    [last_execution_log] are the current script and log. *)
Definition recorded (s : YosysAgentState) : Prop :=
  exists script log,
    current_script s = Some script /\ last_script s = Some (Some script)
    /\ execution_log s = Some log /\ last_execution_log s = Some (Some log).

(** What the state of a run holds of its inputs and of its latest script
    and execution. *)
Definition fed (env : Env) (verilog sdc : str) (c : Config) : Prop :=
  verilog_path (state c) = Some verilog
  /\ sdc_path (state c) = Some sdc
  /\ current_script (state c)
     = Some (latest_script env (llm_calls (world c)))
  /\ match node c with
     | execute_node => True
     | generate_node => llm_calls (world c) = 0 \/ recorded (state c)
     | _ => recorded (state c)
     end.

(** The prompt that [generate_yosys_script] builds in a run: the first
    template as long as the iteration count is 0, the refinement template
    afterwards. *)
Definition expected_prompt (env : Env) (verilog sdc : str)
    (s : YosysAgentState) (k : nat) : Content :=
  if usable_count env k =? 0 then FirstPrompt verilog sdc []
  else RefinePrompt (Some (latest_script env k))
         (Some (or_default [] (execution_log s)))
         (or_default [] (error_details s)) verilog sdc [].

(** A state dictionary that holds the two paths and nothing else. *)
Definition paths_only (verilog sdc : str) : YosysAgentState :=
  mkState (Some verilog) (Some sdc) None None None None None None None None
    None None None.

(** ** The call of the graph *)

(** How [graph.invoke(initial_state)] ends. *)
Inductive Invocation :=
| Returned (final_state : YosysAgentState)
| RaisedKeyError (key : string)
| GraphRecursionError.

(** [graph.invoke(initial_state)] in [run_yosys_script_loop].  The graph
    library stops a run that has not reached [END] within its recursion
    limit of node executions (25 unless configured) and raises
    [GraphRecursionError]; the limit is the parameter [budget].  An
    exception of a node leaves the call. *)
Definition graph_invoke (env : Env) (budget : nat) (verilog sdc : str)
    (limit : Z) : Invocation :=
  match run_yosys_script_loop env verilog sdc limit budget with
  | Ok c =>
      match node c with
      | END => Returned (state c)
      | _ => GraphRecursionError
      end
  | KeyError key => RaisedKeyError key
  end.

(** The language model answers from a list, then ["synth"]; every
    execution completes with exit status 0. *)
Definition env_completing (l : list str) : Env :=
  mkEnv (answers l) (fun _ => TempWritten) (fun _ => Completed (py "ok") []).

(** * Properties *)

(** ** Strings *)

Lemma startswith_spec (p s : str) :
  startswith p s = true <-> exists post, s = p ++ post.
Proof.
  revert s; induction p as [|a p IH]; intros s; simpl.
  - split; [intros _; now exists s | reflexivity].
  - destruct s as [|b s].
    + split; [discriminate | intros [post H]; discriminate].
    + rewrite andb_true_iff, Ascii.eqb_eq, IH. split.
      * intros [-> [post ->]]. now exists post.
      * intros [post H]. injection H as -> ->. split; [reflexivity | now exists post].
Qed.

Lemma contains_spec (sub s : str) :
  contains sub s = true <-> exists pre post, s = pre ++ sub ++ post.
Proof.
  induction s as [|c s IH].
  - simpl. rewrite orb_false_r, startswith_spec. split.
    + intros [post H]. now exists [], post.
    + intros [pre [post H]]. destruct pre; [now exists post | discriminate].
  - cbn [contains]. rewrite orb_true_iff, startswith_spec, IH. split.
    + intros [[post H] | [pre [post H]]].
      * now exists [], post.
      * exists (c :: pre), post. simpl. now f_equal.
    + intros [pre [post H]]. destruct pre as [|d pre].
      * left. now exists post.
      * right. injection H as -> ->. now exists pre, post.
Qed.

Lemma looks_like_command_spec (line : str) :
  looks_like_command line = true <-> Qualifies line.
Proof.
  unfold looks_like_command, Qualifies, any_in_lower.
  rewrite orb_true_iff, startswith_spec, existsb_exists.
  split; (intros [H | H]; [left | right]).
  - destruct H as [post ->]. now exists post.
  - destruct H as [cmd [Hin Hc]]. apply contains_spec in Hc.
    destruct Hc as [pre [post Hc]]. now exists cmd, pre, post.
  - destruct H as [rest ->]. now exists rest.
  - destruct H as [cmd [pre [post [Hin Hc]]]]. exists cmd. split; [assumption|].
    apply contains_spec. now exists pre, post.
Qed.

Lemma looks_like_command_nonempty (line : str) :
  looks_like_command line = true -> line <> [].
Proof. intros H ->. discriminate. Qed.

Lemma lstrip_no_lead (s : str) : no_lead (lstrip s).
Proof.
  induction s as [|c s IH]; simpl; [exact I|].
  destruct (isspace c) eqn:E; [assumption | exact E].
Qed.

Lemma lstrip_id (s : str) : no_lead s -> lstrip s = s.
Proof. destruct s as [|c s]; simpl; [reflexivity | intros ->; reflexivity]. Qed.

Lemma lstrip_suffix (s : str) : exists pre, s = pre ++ lstrip s.
Proof.
  induction s as [|c s [pre IH]]; simpl; [now exists []|].
  destruct (isspace c).
  - exists (c :: pre). simpl. now f_equal.
  - now exists [].
Qed.

Lemma no_lead_app_l (a b : str) : a <> [] -> no_lead (a ++ b) <-> no_lead a.
Proof. destruct a; [congruence | reflexivity]. Qed.

Lemma rstrip_no_trail (s : str) : no_trail (rstrip s).
Proof. unfold no_trail, rstrip. rewrite rev_involutive. apply lstrip_no_lead. Qed.

Lemma rstrip_id (s : str) : no_trail s -> rstrip s = s.
Proof.
  unfold no_trail, rstrip. intros H. rewrite (lstrip_id _ H). apply rev_involutive.
Qed.

Lemma lstrip_keeps_no_trail (s : str) : no_trail s -> no_trail (lstrip s).
Proof.
  unfold no_trail. destruct (lstrip_suffix s) as [pre E].
  destruct (lstrip s) as [|c t] eqn:L; [intros _; exact I|].
  intros H. rewrite E, rev_app_distr in H.
  apply no_lead_app_l in H; [assumption|].
  intros Hnil. apply (f_equal (@rev ascii)) in Hnil.
  rewrite rev_involutive in Hnil. discriminate.
Qed.

Lemma strip_no_lead (s : str) : no_lead (strip s).
Proof. apply lstrip_no_lead. Qed.

Lemma strip_no_trail (s : str) : no_trail (strip s).
Proof. apply lstrip_keeps_no_trail, rstrip_no_trail. Qed.

Lemma strip_id (s : str) : no_lead s -> no_trail s -> strip s = s.
Proof. intros Hl Ht. unfold strip. rewrite (rstrip_id _ Ht). now apply lstrip_id. Qed.

Lemma in_lstrip (c : ascii) (s : str) : In c (lstrip s) -> In c s.
Proof.
  destruct (lstrip_suffix s) as [pre E]. intros H. rewrite E.
  apply in_or_app. now right.
Qed.

Lemma in_strip (c : ascii) (s : str) : In c (strip s) -> In c s.
Proof.
  unfold strip, rstrip. intros H. apply in_lstrip in H.
  apply in_rev in H. apply in_lstrip in H. now apply in_rev.
Qed.

Lemma split_nl_nonempty (s : str) : split_nl s <> [].
Proof.
  induction s as [|c s IH]; simpl; [discriminate|].
  destruct (Ascii.eqb c newline); [discriminate|].
  destruct (split_nl s); discriminate.
Qed.

Lemma split_nl_no_newline (s l : str) :
  In l (split_nl s) -> ~ In newline l.
Proof.
  revert l; induction s as [|c s IH]; intros l; simpl.
  - intros [<- | []]. intros [].
  - destruct (Ascii.eqb c newline) eqn:E.
    + intros [<- | H]; [intros [] | now apply IH].
    + destruct (split_nl s) as [|l0 ls]; simpl.
      * intros [<- | []]. intros [H | []]. subst c.
        now rewrite Ascii.eqb_refl in E.
      * intros [<- | H].
        -- intros [H | H]; [subst c; now rewrite Ascii.eqb_refl in E|].
           revert H. apply IH. now left.
        -- apply IH. now right.
Qed.

Lemma split_nl_line (l : str) : ~ In newline l -> split_nl l = [l].
Proof.
  induction l as [|c l IH]; simpl; [reflexivity|]. intros H.
  destruct (Ascii.eqb c newline) eqn:E.
  - apply Ascii.eqb_eq in E. exfalso. apply H. now left.
  - rewrite IH; [reflexivity | intros Hin; apply H; now right].
Qed.

Lemma split_nl_cons_line (l rest : str) :
  ~ In newline l -> split_nl (l ++ newline :: rest) = l :: split_nl rest.
Proof.
  induction l as [|c l IH]; simpl; intros H.
  - reflexivity.
  - destruct (Ascii.eqb c newline) eqn:E.
    + apply Ascii.eqb_eq in E. exfalso. apply H. now left.
    + rewrite IH; [reflexivity | intros Hin; apply H; now right].
Qed.

Lemma split_join_nl (ls : list str) :
  ls <> [] -> Forall (fun l => ~ In newline l) ls -> split_nl (join_nl ls) = ls.
Proof.
  induction ls as [|l ls IH]; [congruence|]. intros _ H.
  inversion H as [|? ? Hl Hls]; subst.
  destruct ls as [|l2 ls].
  - simpl. now apply split_nl_line.
  - change (join_nl (l :: l2 :: ls)) with (l ++ newline :: join_nl (l2 :: ls)).
    rewrite split_nl_cons_line by assumption.
    f_equal. apply IH; [discriminate | assumption].
Qed.

Lemma join_nl_nonempty (l : str) (ls : list str) :
  l <> [] -> join_nl (l :: ls) <> [].
Proof.
  intros H. destruct ls; simpl; [assumption|].
  destruct l; [congruence | discriminate].
Qed.

Lemma join_nl_no_lead (l : str) (ls : list str) :
  l <> [] -> no_lead l -> no_lead (join_nl (l :: ls)).
Proof.
  intros Hne H. destruct ls; simpl; [assumption|].
  destruct l; [congruence | exact H].
Qed.

Lemma join_nl_no_trail (ls : list str) :
  Forall (fun l => l <> [] /\ no_trail l) ls -> no_trail (join_nl ls).
Proof.
  induction ls as [|l ls IH]; intros H; [exact I|].
  inversion H as [|? ? [Hne Hl] Hls]; subst.
  destruct ls as [|l2 ls]; [exact Hl|].
  change (join_nl (l :: l2 :: ls)) with (l ++ newline :: join_nl (l2 :: ls)).
  unfold no_trail. rewrite rev_app_distr. simpl rev at 1.
  rewrite <- app_assoc. apply no_lead_app_l.
  - inversion Hls as [|? ? [Hne2 _] _]; subst.
    intros Hnil. apply (f_equal (@rev ascii)) in Hnil.
    rewrite rev_involutive in Hnil. revert Hnil. now apply join_nl_nonempty.
  - now apply IH.
Qed.


(** ** Script extraction *)

(** Whatever the first loop keeps is the trimmed form of an input line
    that passed the command test. *)
Lemma scan_line_kept (Q : str -> Prop) (sc : Scan) (raw : str) :
  (looks_like_command (strip raw) = true -> Q (strip raw)) ->
  Forall Q (script_lines sc) ->
  Forall Q (script_lines (scan_line sc raw)).
Proof.
  intros Hraw Hsc. unfold scan_line.
  destruct (startswith (py "```") (strip raw)); [exact Hsc|].
  destruct (contains (py "yosys synthesis script") (lower (strip raw))
            || contains (py "here's the") (lower (strip raw))); [exact Hsc|].
  destruct (any_in_lower skip_words (strip raw)); [exact Hsc|].
  destruct ((in_code_block sc || in_script_section sc) && truthy (strip raw));
    [|exact Hsc].
  destruct (looks_like_command (strip raw)) eqn:E; [|exact Hsc].
  simpl. apply Forall_app. split; [exact Hsc|].
  constructor; [now apply Hraw | constructor].
Qed.

Lemma scan_lines_kept (Q : str -> Prop) (lines : list str) :
  (forall raw, In raw lines -> looks_like_command (strip raw) = true -> Q (strip raw)) ->
  forall sc, Forall Q (script_lines sc) ->
  Forall Q (script_lines (fold_left scan_line lines sc)).
Proof.
  induction lines as [|raw lines IH]; intros Hlines sc Hsc; simpl; [exact Hsc|].
  apply IH.
  - intros r Hin. apply Hlines. now right.
  - apply scan_line_kept; [|exact Hsc]. apply Hlines. now left.
Qed.

Lemma fallback_lines_kept (Q : str -> Prop) (lines : list str) :
  (forall raw, In raw lines -> looks_like_command (strip raw) = true -> Q (strip raw)) ->
  Forall Q (fallback_lines lines).
Proof.
  intros Hlines. unfold fallback_lines. apply Forall_forall. intros l Hl.
  apply filter_In in Hl. destruct Hl as [Hin Hcmd].
  apply in_map_iff in Hin. destruct Hin as [raw [<- Hin]]. now apply Hlines.
Qed.

Lemma kept_lines_all (Q : str -> Prop) (text : str) :
  (forall raw, In raw (split_nl text) ->
     looks_like_command (strip raw) = true -> Q (strip raw)) ->
  Forall Q (kept_lines text).
Proof.
  intros H. unfold kept_lines.
  destruct (truthy _).
  - apply scan_lines_kept; [exact H | constructor].
  - now apply fallback_lines_kept.
Qed.

Lemma kept_lines_well_kept (text : str) : Forall well_kept (kept_lines text).
Proof.
  apply kept_lines_all. intros raw Hin Hcmd. repeat split.
  - exact Hcmd.
  - intros Hnl. apply in_strip in Hnl. revert Hnl. now apply split_nl_no_newline with (s := text).
  - apply strip_no_lead.
  - apply strip_no_trail.
Qed.

(** The final [strip] changes nothing: the result is the kept lines,
    joined. *)
Lemma extract_script_is_join (text : str) :
  extract_script_from_text text = join_nl (kept_lines text).
Proof.
  change (extract_script_from_text text) with (strip (join_nl (kept_lines text))).
  pose proof (kept_lines_well_kept text) as H.
  destruct (kept_lines text) as [|l ls]; [reflexivity|].
  inversion H as [|? ? [Hcmd [_ [Hl _]]] _]; subst.
  apply strip_id.
  - apply join_nl_no_lead; [now apply looks_like_command_nonempty | exact Hl].
  - apply join_nl_no_trail. revert H. apply Forall_impl.
    intros a [Ha [_ [_ Ht]]]. split; [now apply looks_like_command_nonempty | exact Ht].
Qed.

Lemma extract_script_lines (text : str) :
  kept_lines text <> [] ->
  split_nl (extract_script_from_text text) = kept_lines text.
Proof.
  intros Hne. rewrite extract_script_is_join. apply split_join_nl; [exact Hne|].
  generalize (kept_lines_well_kept text). apply Forall_impl.
  intros a [_ [Ha _]]. exact Ha.
Qed.

(** C9, as the code has it. Every line of the script returned by
    [extract_script_from_text] starts with [#] or contains, in lower case,
    one of the Yosys command keywords (the returned string being empty
    otherwise); and when no line of the input qualifies once the white
    space around it is trimmed, the function returns the empty string. *)
Theorem extract_script_lines_qualify (text : str) :
  (extract_script_from_text text = []
   \/ Forall Qualifies (split_nl (extract_script_from_text text)))
  /\ ((forall raw, In raw (split_nl text) -> ~ Qualifies (strip raw)) ->
      extract_script_from_text text = []).
Proof.
  split.
  - destruct (kept_lines text) as [|l ls] eqn:E.
    + left. rewrite extract_script_is_join, E. reflexivity.
    + right. rewrite extract_script_lines by (rewrite E; discriminate).
      generalize (kept_lines_well_kept text). apply Forall_impl.
      intros a [Ha _]. now apply looks_like_command_spec.
  - intros Hnone. rewrite extract_script_is_join.
    assert (H : Forall (fun _ => False) (kept_lines text)).
    { apply kept_lines_all. intros raw Hin Hcmd.
      apply (Hnone raw Hin). now apply looks_like_command_spec. }
    destruct (kept_lines text); [reflexivity | now inversion H].
Qed.

Lemma extract_script_lines_qualify_witness :
  (forall raw, In raw (split_nl (py "no script here")) -> ~ Qualifies (strip raw))
  /\ extract_script_from_text (py "no script here") = [].
Proof.
  assert (H : forall raw, In raw (split_nl (py "no script here")) ->
                          ~ Qualifies (strip raw)).
  { intros raw [<- | []] HQ. apply looks_like_command_spec in HQ.
    vm_compute in HQ. discriminate. }
  split; [exact H|].
  exact (proj2 (extract_script_lines_qualify (py "no script here")) H).
Defined.


(** C9 fails as stated: an indented comment does not start with [#] and
    holds no keyword, so that no line of the input qualifies as it stands,
    and the function returns the comment, trimmed. *)
Lemma indented_comment_is_extracted :
  (forall raw, In raw (split_nl (py "  # top level")) -> ~ Qualifies raw)
  /\ extract_script_from_text (py "  # top level") = py "# top level"
  /\ extract_script_from_text (py "  # top level") <> [].
Proof.
  split; [|split; [vm_compute; reflexivity | vm_compute; discriminate]].
  intros raw [<- | []] HQ. apply looks_like_command_spec in HQ.
  vm_compute in HQ. discriminate.
Qed.

(** The cases of [test_script_extraction]. *)
Example extraction_case_1 :
  extract_script_from_text
    (py "Generated Yosys script:" ++ newline :: py "read_verilog counter.v"
        ++ newline :: py "synth" ++ newline :: py "write_verilog output.v")
  = py "read_verilog counter.v" ++ newline :: py "synth"
       ++ newline :: py "write_verilog output.v".
Proof. vm_compute. reflexivity. Qed.

Example extraction_case_2 :
  extract_script_from_text
    (py "```" ++ newline :: py "read_verilog counter.v"
        ++ newline :: py "synth" ++ newline :: py "write_verilog output.v"
        ++ newline :: py "```")
  = py "read_verilog counter.v" ++ newline :: py "synth"
       ++ newline :: py "write_verilog output.v".
Proof. vm_compute. reflexivity. Qed.

Example extraction_case_3 :
  extract_script_from_text
    (py "Here's the script:" ++ newline :: py "read_verilog counter.v"
        ++ newline :: py "synth" ++ newline :: py "write_verilog output.v"
        ++ newline :: py "That should work!")
  = py "read_verilog counter.v" ++ newline :: py "synth"
       ++ newline :: py "write_verilog output.v".
Proof. vm_compute. reflexivity. Qed.

(** [os.path] on the paths of the tests. *)
Example splitext_basename_counter :
  splitext_root (basename (py "yosys_test/counter.v")) = py "counter".
Proof. vm_compute. reflexivity. Qed.

Example splitext_root_hidden_file :
  splitext_root (basename (py "home/.bashrc")) = py ".bashrc".
Proof. vm_compute. reflexivity. Qed.

Example splitext_root_last_dot :
  splitext_root (py "a.b/c.d.e") = py "a.b/c.d".
Proof. vm_compute. reflexivity. Qed.

(** ** The invariant of the loop *)

Lemma usable_unusable (env : Env) (n : nat) :
  usable_count env n + unusable_count env n = n.
Proof.
  induction n as [|n IH]; simpl; [reflexivity|].
  destruct (usable env n); lia.
Qed.

Lemma usable_count_le (env : Env) (n : nat) : usable_count env n <= n.
Proof. pose proof (usable_unusable env n). lia. Qed.

Lemma usable_count_all (env : Env) (n : nat) :
  (forall k, k < n -> usable env k = true) -> usable_count env n = n.
Proof.
  induction n as [|n IH]; intros H; simpl; [reflexivity|].
  rewrite H by lia. rewrite IH; [lia | intros k Hk; apply H; lia].
Qed.

Lemma unlink_fresh (n : nat) (script : str) (files : list (nat * str)) :
  Forall (fun f => fst f < n) files -> unlink n ((n, script) :: files) = files.
Proof.
  intros H. unfold unlink. simpl. rewrite Nat.eqb_refl. simpl.
  induction H as [|f files Hf _ IH]; simpl; [reflexivity|].
  destruct (Nat.eqb_spec (fst f) n); [lia|]. simpl. now f_equal.
Qed.

Lemma Forall_fresh_S (n : nat) (files : list (nat * str)) :
  Forall (fun f => fst f < n) files -> Forall (fun f => fst f < S n) files.
Proof. apply Forall_impl. intros; lia. Qed.

Lemma Inv_start (env : Env) (verilog sdc : str) (limit : Z) :
  Inv env limit (start verilog sdc limit).
Proof.
  unfold Inv, node_inv; simpl. repeat split; auto.
Qed.

(** The generation step, from a configuration of a run. *)
Lemma step_generate_inv (env : Env) (limit : Z) (c : Config) :
  Inv env limit c -> node c = generate_node ->
  exists c', step env c = Ok c' /\ Inv env limit c' /\ node c' = execute_node
    /\ llm_calls (world c') = S (llm_calls (world c))
    /\ exec_calls (world c') = exec_calls (world c)
    /\ tmp_files (world c') = tmp_files (world c)
    /\ feedback (state c') = feedback (state c)
    /\ (if usable env (llm_calls (world c))
        then current_script (state c')
             = Some (extract_script_from_text
                       (llm_invoke env (llm_calls (world c))))
        else current_script (state c') = current_script (state c)
             /\ iteration (state c') = iteration (state c)
             /\ exists h p,
                  message_history (state c) = Some h
                  /\ message_history (state c')
                     = Some (h ++ [HumanMessage p;
                                   AIMessage (llm_invoke env (llm_calls (world c)));
                                   HumanMessage corrective_prompt])).
Proof.
  intros H Hn. open_config c H. simpl in Hn; subst.
  unfold node_inv in Hnode; simpl in Hnode.
  destruct Hnode as (Hgo & Hcalls & Hbound). injection Hgo as ->. subst.
  unfold step, generate_yosys_script; simpl. unfold usable.
  destruct (truthy (extract_script_from_text (llm_invoke env llm))) eqn:U;
    destruct (Z.of_nat (usable_count env llm) =? 0)%Z;
    simpl; eexists; (split; [reflexivity|]);
    (split;
     [unfold Inv, node_inv; simpl; unfold usable; rewrite U;
      repeat split; auto; try (f_equal; lia); try lia|]);
    simpl; repeat split; auto;
    eexists; eexists; (split; [reflexivity|]);
    rewrite <- !app_assoc; reflexivity.
Qed.

(** The execution step. *)
Lemma step_execute_inv (env : Env) (limit : Z) (c : Config) :
  Inv env limit c -> node c = execute_node ->
  exists c' script, step env c = Ok c' /\ Inv env limit c'
    /\ node c' = evaluate_node
    /\ llm_calls (world c') = llm_calls (world c)
    /\ exec_calls (world c') = S (exec_calls (world c))
    /\ iteration (state c') = iteration (state c)
    /\ current_script (state c) = Some script
    /\ current_script (state c') = Some script
    /\ message_history (state c') = message_history (state c)
    /\ feedback (state c')
       = Some (Some (feedback_of env (exec_calls (world c))))
    /\ tmp_files (world c')
       = (if leaves_file env (exec_calls (world c))
          then [(exec_calls (world c), script)] else [])
         ++ tmp_files (world c).
Proof.
  intros H Hn. open_config c H. simpl in Hn; subst.
  unfold node_inv in Hnode; simpl in Hnode.
  destruct Hnode as (Hgo & Hcalls & Hbound). injection Hgo as ->. subst.
  pose proof (Forall_fresh_S _ _ Hfresh) as HfreshS.
  unfold step, execute_yosys_script, try_execute, feedback_of, leaves_file; simpl.
  destruct (temp_file env exe) as [|[|msg]]; simpl;
    [destruct (subprocess_run env exe) as [so se| |rc so se|[|msg]]; simpl|..];
    rewrite ?unlink_fresh by assumption;
    eexists; eexists; (split; [reflexivity|]);
    (split;
     [unfold Inv, node_inv; simpl; repeat split; auto;
      try (constructor; [simpl; lia | assumption])|]);
    simpl; repeat split; auto.
Qed.

(** The evaluation step and the edge out of it. *)
Lemma step_evaluate_inv (env : Env) (limit : Z) (c : Config) :
  Inv env limit c -> node c = evaluate_node ->
  exists c' f it, step env c = Ok c' /\ Inv env limit c'
    /\ world c' = world c
    /\ feedback (state c) = Some (Some f)
    /\ iteration (state c) = Some it
    /\ iteration (state c') = Some it
    /\ message_history (state c') = message_history (state c)
    /\ feedback (state c') = Some (Some (evaluated f it limit))
    /\ game_over (state c') = Some (stops f it limit)
    /\ node c' = (if stops f it limit then END else generate_node).
Proof.
  intros H Hn. open_config c H. simpl in Hn; subst.
  unfold node_inv in Hnode; simpl in Hnode.
  destruct Hnode as (Hgo & Hfrom & Hcalls & Hbound). injection Hgo as ->. subst.
  unfold step, evaluate_execution, should_continue_yosys; simpl.
  destruct o1 as [[| | | |]|]; try discriminate Hfrom; simpl;
    try destruct (Z.of_nat (usable_count env llm) >=? limit)%Z eqn:G; simpl;
    eexists; eexists; eexists; (split; [reflexivity|]);
    (split; [unfold Inv, node_inv; simpl; repeat split; auto; try lia|]);
    simpl; repeat split; auto; unfold evaluated, stops; rewrite ?G; reflexivity.
Qed.

Lemma step_END (env : Env) (c : Config) : node c = END -> step env c = Ok c.
Proof. intros H. unfold step. now rewrite H. Qed.

Lemma steps_END (env : Env) (m : nat) (c : Config) :
  node c = END -> steps env m c = Ok c.
Proof.
  intros H. induction m as [|m IH]; simpl; [reflexivity|].
  rewrite (step_END env c H). exact IH.
Qed.

Lemma steps_add (env : Env) (n m : nat) (c : Config) :
  steps env (n + m) c = (c' <- steps env n c ;; steps env m c').
Proof.
  revert c; induction n as [|n IH]; intros c; simpl; [reflexivity|].
  destruct (step env c) as [c1|k]; simpl; [apply IH | reflexivity].
Qed.

Lemma step_inv (env : Env) (limit : Z) (c : Config) :
  Inv env limit c -> exists c', step env c = Ok c' /\ Inv env limit c'.
Proof.
  intros H. destruct (node c) eqn:Hn.
  - destruct (step_generate_inv env limit c H Hn) as (c' & ? & ? & _); eauto.
  - destruct (step_execute_inv env limit c H Hn) as (c' & ? & ? & ? & _); eauto.
  - destruct (step_evaluate_inv env limit c H Hn) as (c' & ? & ? & ? & ? & _); eauto.
  - exists c. split; [now apply step_END | exact H].
Qed.

Lemma steps_inv (env : Env) (limit : Z) (n : nat) (c : Config) :
  Inv env limit c -> exists c', steps env n c = Ok c' /\ Inv env limit c'.
Proof.
  revert c; induction n as [|n IH]; intros c H; simpl; [eauto|].
  destruct (step_inv env limit c H) as (c1 & -> & H1). simpl. now apply IH.
Qed.

(** A run from the entry point never raises, and the invariant holds at
    each of its configurations. *)
Lemma run_inv (env : Env) (verilog sdc : str) (limit : Z) (n : nat) :
  exists c, run_yosys_script_loop env verilog sdc limit n = Ok c
            /\ Inv env limit c.
Proof. apply steps_inv, Inv_start. Qed.

Lemma run_reaches_inv (env : Env) (verilog sdc : str) (limit : Z) (n : nat)
    (c : Config) :
  run_yosys_script_loop env verilog sdc limit n = Ok c -> Inv env limit c.
Proof.
  intros H. destruct (run_inv env verilog sdc limit n) as (c' & H' & Hinv).
  congruence.
Qed.

Lemma run_add (env : Env) (verilog sdc : str) (limit : Z) (n m : nat)
    (c : Config) :
  run_yosys_script_loop env verilog sdc limit n = Ok c ->
  run_yosys_script_loop env verilog sdc limit (n + m) = steps env m c.
Proof.
  unfold run_yosys_script_loop. intros H. now rewrite steps_add, H.
Qed.

Lemma steps_S (env : Env) (m : nat) (c c' : Config) :
  step env c = Ok c' -> steps env (S m) c = steps env m c'.
Proof. intros H. simpl. now rewrite H. Qed.

(** Execution and evaluation, from a configuration of a run that is about
    to execute. *)
Lemma execute_then_evaluate (env : Env) (limit : Z) (c : Config) :
  Inv env limit c -> node c = execute_node ->
  exists c2 it script,
    steps env 2 c = Ok c2 /\ Inv env limit c2
    /\ iteration (state c) = Some it
    /\ current_script (state c) = Some script
    /\ llm_calls (world c2) = llm_calls (world c)
    /\ exec_calls (world c2) = S (exec_calls (world c))
    /\ iteration (state c2) = Some it
    /\ feedback (state c2)
       = Some (Some (evaluated (feedback_of env (exec_calls (world c))) it limit))
    /\ game_over (state c2)
       = Some (stops (feedback_of env (exec_calls (world c))) it limit)
    /\ node c2 = (if stops (feedback_of env (exec_calls (world c))) it limit
                  then END else generate_node)
    /\ tmp_files (world c2)
       = (if leaves_file env (exec_calls (world c))
          then [(exec_calls (world c), script)] else [])
         ++ tmp_files (world c).
Proof.
  intros H Hn.
  destruct (step_execute_inv env limit c H Hn)
    as (c1 & script & Hs1 & H1 & Hn1 & Hl1 & He1 & Hi1 & Hcs & _ & _ & Hf1 & Ht1).
  destruct (step_evaluate_inv env limit c1 H1 Hn1)
    as (c2 & f & it & Hs2 & H2 & Hw2 & Hf & Hi & Hi2 & _ & Hf2 & Hg2 & Hn2).
  rewrite Hf1 in Hf. injection Hf as <-.
  exists c2, it, script.
  rewrite (steps_S env 1 c c1 Hs1), (steps_S env 0 c1 c2 Hs2). simpl.
  split; [reflexivity|]. split; [exact H2|].
  rewrite Hw2. repeat split; auto; congruence.
Qed.

(** One whole round, from a configuration of a run that is about to
    generate. *)
Lemma one_round (env : Env) (limit : Z) (c : Config) :
  Inv env limit c -> node c = generate_node ->
  exists c3,
    steps env 3 c = Ok c3 /\ Inv env limit c3
    /\ llm_calls (world c3) = S (llm_calls (world c))
    /\ exec_calls (world c3) = S (exec_calls (world c))
    /\ feedback (state c3)
       = Some (Some (evaluated (feedback_of env (exec_calls (world c)))
                       (Z.of_nat (usable_count env (S (llm_calls (world c)))))
                       limit))
    /\ node c3
       = (if stops (feedback_of env (exec_calls (world c)))
                   (Z.of_nat (usable_count env (S (llm_calls (world c))))) limit
          then END else generate_node).
Proof.
  intros H Hn.
  destruct (step_generate_inv env limit c H Hn)
    as (c1 & Hs1 & H1 & Hn1 & Hl1 & He1 & _).
  destruct (execute_then_evaluate env limit c1 H1 Hn1)
    as (c3 & it & script & Hs3 & H3 & Hi & _ & Hl3 & He3 & _ & Hf3 & _ & Hn3 & _).
  assert (Hit : it = Z.of_nat (usable_count env (S (llm_calls (world c))))).
  { destruct H1 as (_ & _ & _ & Hit & _). rewrite Hl1 in Hit. congruence. }
  subst it. rewrite He1 in Hf3, Hn3.
  exists c3. rewrite (steps_S env 2 c c1 Hs1).
  split; [exact Hs3|]. split; [exact H3|].
  repeat split; auto; congruence.
Qed.

Lemma outcome_success (env : Env) (n : nat) :
  outcome env n = ExecSuccess -> feedback_of env n = Success.
Proof. unfold outcome. destruct (feedback_of env n); congruence. Qed.

Lemma outcome_fatal (env : Env) (n : nat) :
  outcome env n = ExecFatal -> feedback_of env n = Error.
Proof.
  unfold outcome, feedback_of.
  destruct (temp_file env n); [destruct (subprocess_run env n)|]; congruence.
Qed.

Lemma outcome_recoverable (env : Env) (n : nat) :
  outcome env n = ExecRecoverable ->
  feedback_of env n = Failure \/ feedback_of env n = Timeout.
Proof. unfold outcome. destruct (feedback_of env n); try congruence; auto. Qed.

(** ** The termination flag *)

Lemma stops_iff (f : Feedback) (it limit : Z) :
  f <> MaxIterationsReached ->
  stops f it limit = true <->
  evaluated f it limit = Success \/ evaluated f it limit = Error
  \/ (it >= limit)%Z.
Proof.
  intros Hf. unfold stops, evaluated.
  destruct f; try congruence; destruct (Z.geb_spec it limit);
    intuition (try congruence; try lia).
Qed.

(** C1. In a run of the loop, the state that an evaluation step leaves has
    [game_over] true exactly when its feedback is success, or is the fatal
    error, or the iteration count has reached the limit; when the flag is
    true the run is over and stays where it is; and no generation or
    execution step is ever run with the flag true. *)
Theorem game_over_iff_after_evaluation
    (env : Env) (verilog sdc : str) (limit : Z) (n : nat) (c : Config) :
  run_yosys_script_loop env verilog sdc limit n = Ok c ->
  (node c = evaluate_node ->
   exists c', step env c = Ok c'
     /\ (game_over (state c') = Some true <->
         feedback (state c') = Some (Some Success)
         \/ feedback (state c') = Some (Some Error)
         \/ limit_reached (state c'))
     /\ (game_over (state c') = Some true ->
         node c' = END /\ forall m, steps env m c' = Ok c'))
  /\ (node c = generate_node \/ node c = execute_node ->
      game_over (state c) = Some false).
Proof.
  intros Hrun. apply run_reaches_inv in Hrun. split.
  - intros Hn.
    destruct (step_evaluate_inv env limit c Hrun Hn)
      as (c' & f & it & Hs & H' & _ & Hf & _ & Hi' & _ & Hf' & Hg' & Hn').
    assert (Hne : f <> MaxIterationsReached).
    { destruct Hrun as (_ & _ & _ & _ & _ & Hnode). unfold node_inv in Hnode.
      rewrite Hn, Hf in Hnode. destruct Hnode as (_ & Hfrom & _).
      intros ->. discriminate. }
    destruct H' as (_ & Hmx & _).
    exists c'. split; [exact Hs|]. rewrite Hg', Hf'. split.
    + split.
      * intros Hst. injection Hst as Hst. apply (stops_iff f it limit Hne) in Hst.
        destruct Hst as [-> | [-> | Hge]]; auto.
        right; right. now exists it, limit.
      * intros Hr. f_equal. apply (stops_iff f it limit Hne).
        destruct Hr as [Hr | [Hr | (i & mx & Hi & Hm & Hge)]].
        -- left. congruence.
        -- right; left. congruence.
        -- right; right. congruence.
    + intros Hst. injection Hst as Hst. rewrite Hst in Hn'.
      split; [exact Hn'|]. intros m. now apply steps_END.
  - destruct Hrun as (_ & _ & _ & _ & _ & Hnode). unfold node_inv in Hnode.
    intros [Hn | Hn]; rewrite Hn in Hnode; tauto.
Qed.

Lemma game_over_iff_after_evaluation_witness :
  exists c,
    run_yosys_script_loop (env_failing []) (py "counter.v") (py "counter.sdc") 1 2
      = Ok c
    /\ node c = evaluate_node
    /\ exists c', step (env_failing []) c = Ok c'
         /\ (game_over (state c') = Some true <->
             feedback (state c') = Some (Some Success)
             \/ feedback (state c') = Some (Some Error)
             \/ limit_reached (state c')).
Proof.
  eexists. split; [vm_compute; reflexivity|]. split; [reflexivity|].
  match goal with
  | |- exists c', step ?e ?c = _ /\ _ =>
      destruct (game_over_iff_after_evaluation e (py "counter.v")
                  (py "counter.sdc") 1 2 c) as [H _];
        [vm_compute; reflexivity|];
        destruct (H eq_refl) as (c' & Hs & Hiff & _);
        exists c'; split; [exact Hs | exact Hiff]
  end.
Defined.

(** ** Number of executions *)

Lemma Inv_calls (env : Env) (limit : Z) (c : Config) :
  Inv env limit c ->
  exec_calls (world c) <= llm_calls (world c)
  /\ (llm_calls (world c) <= 1
      \/ (Z.of_nat (usable_count env (llm_calls (world c))) <= limit)%Z).
Proof.
  intros (_ & _ & _ & _ & _ & Hnode). unfold node_inv in Hnode.
  destruct (node c); intuition lia.
Qed.

(** C2, as the code has it. With a limit of at least 1, the number of
    executions never exceeds the limit plus the number of answers of the
    language model that held no script: the execution step follows every
    generation step, also one that produced no script.  When every answer
    holds a script the executions are at most [limit]. *)
Theorem executions_bounded
    (env : Env) (verilog sdc : str) (limit : Z) (n : nat) (c : Config) :
  (1 <= limit)%Z ->
  run_yosys_script_loop env verilog sdc limit n = Ok c ->
  (Z.of_nat (exec_calls (world c))
   <= limit + Z.of_nat (unusable_count env (llm_calls (world c))))%Z
  /\ ((forall k, usable env k = true) ->
      (Z.of_nat (exec_calls (world c)) <= limit)%Z).
Proof.
  intros Hlim Hrun. apply run_reaches_inv in Hrun.
  destruct (Inv_calls env limit c Hrun) as [Hle Hb].
  pose proof (usable_unusable env (llm_calls (world c))) as Hsum.
  pose proof (usable_count_le env (llm_calls (world c))) as Hu.
  assert (Hit : (Z.of_nat (usable_count env (llm_calls (world c))) <= limit)%Z)
    by (destruct Hb; lia).
  split; [lia|].
  intros Hall. rewrite usable_count_all in Hit by (intros; apply Hall). lia.
Qed.

Lemma executions_bounded_witness :
  exists c,
    run_yosys_script_loop (env_failing [py "no script here"])
      (py "counter.v") (py "counter.sdc") 1 6 = Ok c
    /\ (Z.of_nat (exec_calls (world c))
        <= 1 + Z.of_nat (unusable_count (env_failing [py "no script here"])
                           (llm_calls (world c))))%Z.
Proof.
  eexists. split; [vm_compute; reflexivity|].
  eapply (executions_bounded (env_failing [py "no script here"])
            (py "counter.v") (py "counter.sdc") 1 6); [lia|].
  vm_compute; reflexivity.
Defined.

(** C2 fails as stated: with a limit of 1, a first answer without script
    and a second with one, [yosys] failing both times, the loop ends after
    two executions. *)
Lemma executions_exceed_limit :
  exists c,
    run_yosys_script_loop (env_failing [py "no script here"])
      (py "counter.v") (py "counter.sdc") 1 6 = Ok c
    /\ node c = END
    /\ ~ (Z.of_nat (exec_calls (world c)) <= 1)%Z.
Proof.
  eexists. split; [vm_compute; reflexivity|]. split; [reflexivity|].
  vm_compute. intros H. apply H. reflexivity.
Qed.

(** ** A limit of zero *)

(** C3, as the code has it. With a limit of 0 the loop runs one round, one
    call of the language model and one execution, and ends after it; the
    feedback is success when the execution succeeded and
    [max_iterations_reached] otherwise. *)
Theorem zero_limit_runs_one_round (env : Env) (verilog sdc : str) :
  exists c,
    run_yosys_script_loop env verilog sdc 0 3 = Ok c
    /\ node c = END
    /\ llm_calls (world c) = 1
    /\ exec_calls (world c) = 1
    /\ feedback (state c)
       = Some (Some (match outcome env 0 with
                     | ExecSuccess => Success
                     | _ => MaxIterationsReached
                     end))
    /\ forall m, run_yosys_script_loop env verilog sdc 0 (3 + m) = Ok c.
Proof.
  destruct (one_round env 0 (start verilog sdc 0) (Inv_start env verilog sdc 0)
              eq_refl) as (c & Hrun & _ & Hl & He & Hf & Hn).
  change (exec_calls (world (start verilog sdc 0))) with 0 in *.
  change (llm_calls (world (start verilog sdc 0))) with 0 in *.
  assert (Hge : (Z.of_nat (usable_count env 1) >=? 0)%Z = true)
    by (apply Z.geb_le; lia).
  assert (Hend : node c = END).
  { rewrite Hn. unfold stops. rewrite Hge. now destruct (feedback_of env 0). }
  exists c. repeat split; auto.
  - rewrite Hf. unfold evaluated, outcome. rewrite Hge.
    now destruct (feedback_of env 0).
  - intros m. rewrite (run_add _ _ _ _ _ m _ Hrun). now apply steps_END.
Qed.

(** C3 fails as stated: with a limit of 0 the language model is called
    once and the script is executed once, and a successful execution is
    reported as success. *)
Lemma zero_limit_still_runs :
  exists c,
    run_yosys_script_loop env_succeeding (py "counter.v") (py "counter.sdc") 0 3
      = Ok c
    /\ node c = END
    /\ llm_calls (world c) = 1
    /\ exec_calls (world c) = 1
    /\ feedback (state c) = Some (Some Success).
Proof.
  eexists. split; [vm_compute; reflexivity|]. repeat split.
Qed.

(** ** Success *)

(** C4, as the code has it. When the execution of round [k] succeeds, [k]
    being the number of that execution, with [1 <= k <= limit], the run
    reaches [END] two transitions later with feedback success, without a
    further call of the language model or a further execution, and stays
    there; this is so on the last round [k = limit] as well.  The
    iteration count is then the number of the first [k] answers that held
    a script: it is [k] when all of them did, and less when a round
    without script was executed before. *)
Theorem success_on_round_ends_loop
    (env : Env) (verilog sdc : str) (limit : Z) (k n : nat) (c : Config) :
  run_yosys_script_loop env verilog sdc limit n = Ok c ->
  node c = execute_node ->
  S (exec_calls (world c)) = k ->
  (1 <= Z.of_nat k <= limit)%Z ->
  outcome env (exec_calls (world c)) = ExecSuccess ->
  exists c',
    run_yosys_script_loop env verilog sdc limit (n + 2) = Ok c'
    /\ node c' = END
    /\ feedback (state c') = Some (Some Success)
    /\ game_over (state c') = Some true
    /\ iteration (state c') = Some (Z.of_nat (usable_count env k))
    /\ ((forall j, j < k -> usable env j = true) ->
        iteration (state c') = Some (Z.of_nat k))
    /\ llm_calls (world c') = k
    /\ exec_calls (world c') = k
    /\ forall m,
         run_yosys_script_loop env verilog sdc limit (n + 2 + m) = Ok c'.
Proof.
  intros Hrun Hn Hk _ Hout.
  pose proof (run_reaches_inv _ _ _ _ _ _ Hrun) as Hinv.
  assert (Hcalls : llm_calls (world c) = k).
  { destruct Hinv as (_ & _ & _ & _ & _ & Hnode). unfold node_inv in Hnode.
    rewrite Hn in Hnode. destruct Hnode as (_ & Hl & _). congruence. }
  assert (Hit : iteration (state c) = Some (Z.of_nat (usable_count env k))).
  { destruct Hinv as (_ & _ & _ & Hit & _). now rewrite Hcalls in Hit. }
  destruct (execute_then_evaluate env limit c Hinv Hn)
    as (c' & it & script & Hs & _ & Hi & _ & Hl & He & Hi' & Hf & Hg & Hn' & _).
  rewrite (outcome_success _ _ Hout) in Hf, Hg, Hn'. simpl in Hf, Hg, Hn'.
  assert (it = Z.of_nat (usable_count env k)) by congruence. subst it.
  assert (Hrun' : run_yosys_script_loop env verilog sdc limit (n + 2) = Ok c')
    by (rewrite (run_add _ _ _ _ _ 2 _ Hrun); exact Hs).
  exists c'. split; [exact Hrun'|]. split; [exact Hn'|].
  split; [exact Hf|]. split; [exact Hg|]. split; [exact Hi'|].
  split; [|split; [congruence|split; [congruence|]]].
  - intros Hall. rewrite Hi'. now rewrite (usable_count_all env k Hall).
  - intros m. rewrite (run_add _ _ _ _ _ m _ Hrun'). now apply steps_END.
Qed.

Lemma success_on_round_ends_loop_witness :
  exists c c',
    run_yosys_script_loop env_succeeding (py "counter.v") (py "counter.sdc") 1 1
      = Ok c
    /\ run_yosys_script_loop env_succeeding (py "counter.v") (py "counter.sdc")
         1 3 = Ok c'
    /\ node c' = END
    /\ feedback (state c') = Some (Some Success)
    /\ iteration (state c') = Some 1%Z.
Proof.
  eexists.
  match goal with
  | |- exists c', run_yosys_script_loop ?e ?v ?s ?l ?n = Ok ?c /\ _ =>
      assert (Hrun : run_yosys_script_loop e v s l n = Ok c)
        by (vm_compute; reflexivity);
      destruct (success_on_round_ends_loop e v s l 1 n c Hrun)
        as (c' & Hr & Hn & Hf & _ & Hi & _ & _);
        [reflexivity | reflexivity | lia | reflexivity |];
      exists c'; repeat split; assumption
  end.
Defined.

(** C4 fails as stated: the first answer holds no script, the empty script
    is executed all the same and [yosys] accepts it; the loop ends with
    success on round 1 and an iteration count of 0. *)
Lemma success_after_answer_without_script :
  exists c,
    run_yosys_script_loop (env_completing [py "no script here"])
      (py "counter.v") (py "counter.sdc") 3 3 = Ok c
    /\ node c = END
    /\ usable (env_completing [py "no script here"]) 0 = false
    /\ outcome (env_completing [py "no script here"]) 0 = ExecSuccess
    /\ exec_calls (world c) = 1
    /\ feedback (state c) = Some (Some Success)
    /\ iteration (state c) = Some 0%Z
    /\ iteration (state c) <> Some 1%Z.
Proof.
  eexists. split; [vm_compute; reflexivity|]. repeat split. discriminate.
Qed.

(** The scenario of the specification: limit 3, two failures, then a
    success. *)
Example third_round_succeeds :
  exists c,
    run_yosys_script_loop env_third_time (py "counter.v") (py "counter.sdc") 3 9
      = Ok c
    /\ node c = END
    /\ feedback (state c) = Some (Some Success)
    /\ iteration (state c) = Some 3%Z
    /\ exec_calls (world c) = 3.
Proof. eexists. split; [vm_compute; reflexivity|]. repeat split. Qed.

(** ** Fatal errors *)

(** What the code does after an execution that ends in the fatal error:
    the run reaches [END] two transitions later without a further call of
    the language model or a further execution; the feedback that the outer
    handler stored survives the evaluation only when the iteration count
    is below the limit, and is overwritten by [max_iterations_reached]
    when the count has reached it. *)
Theorem fatal_error_ends_loop
    (env : Env) (verilog sdc : str) (limit k : Z) (n : nat) (c : Config) :
  run_yosys_script_loop env verilog sdc limit n = Ok c ->
  node c = execute_node ->
  iteration (state c) = Some k ->
  outcome env (exec_calls (world c)) = ExecFatal ->
  exists c',
    run_yosys_script_loop env verilog sdc limit (n + 2) = Ok c'
    /\ node c' = END
    /\ game_over (state c') = Some true
    /\ feedback (state c')
       = Some (Some (if (k <? limit)%Z then Error else MaxIterationsReached))
    /\ iteration (state c') = Some k
    /\ llm_calls (world c') = llm_calls (world c)
    /\ exec_calls (world c') = S (exec_calls (world c))
    /\ forall m,
         run_yosys_script_loop env verilog sdc limit (n + 2 + m) = Ok c'.
Proof.
  intros Hrun Hn Hk Hout.
  pose proof (run_reaches_inv _ _ _ _ _ _ Hrun) as Hinv.
  destruct (execute_then_evaluate env limit c Hinv Hn)
    as (c' & it & script & Hs & _ & Hi & _ & Hl & He & Hi' & Hf & Hg & Hn' & _).
  rewrite (outcome_fatal _ _ Hout) in Hf, Hg, Hn'. simpl in Hf, Hg, Hn'.
  assert (it = k) by congruence. subst it.
  assert (Hrun' : run_yosys_script_loop env verilog sdc limit (n + 2) = Ok c')
    by (rewrite (run_add _ _ _ _ _ 2 _ Hrun); exact Hs).
  exists c'. repeat split; auto.
  - rewrite Hf. destruct (Z.geb_spec k limit), (Z.ltb_spec k limit);
      try reflexivity; lia.
  - intros m. rewrite (run_add _ _ _ _ _ m _ Hrun'). now apply steps_END.
Qed.

Lemma fatal_error_ends_loop_witness :
  exists c c',
    run_yosys_script_loop env_no_yosys (py "counter.v") (py "counter.sdc") 5 1
      = Ok c
    /\ run_yosys_script_loop env_no_yosys (py "counter.v") (py "counter.sdc")
         5 3 = Ok c'
    /\ node c' = END
    /\ feedback (state c') = Some (Some Error)
    /\ iteration (state c') = Some 1%Z.
Proof.
  eexists.
  match goal with
  | |- exists c', run_yosys_script_loop ?e ?v ?s ?l ?n = Ok ?c /\ _ =>
      assert (Hrun : run_yosys_script_loop e v s l n = Ok c)
        by (vm_compute; reflexivity);
      destruct (fatal_error_ends_loop e v s l 1 n c Hrun)
        as (c' & Hr & Hn & _ & Hf & Hi & _);
        [reflexivity | reflexivity | reflexivity |];
      exists c'; repeat split; assumption
  end.
Defined.

(** C5 does not hold of the code on the last round. With a limit of 1 and
    [yosys] absent, the outer handler stores the feedback error, the
    details and the termination flag, and the loop ends after that round;
    but [evaluate_execution] then overwrites the feedback, so that the run
    ends with [max_iterations_reached] and the report says "maximum
    iterations", while the error details still say that Yosys was not
    found. *)
Theorem fatal_error_on_last_round :
  exists c,
    run_yosys_script_loop env_no_yosys (py "counter.v") (py "counter.sdc") 1 3
      = Ok c
    /\ node c = END
    /\ outcome env_no_yosys 0 = ExecFatal
    /\ game_over (state c) = Some true
    /\ error_details (state c) = Some (py "Yosys not found")
    /\ feedback (state c) = Some (Some MaxIterationsReached)
    /\ feedback (state c) <> Some (Some Error)
    /\ final_verdict (state c) = Ok (ReportMaxIterations 1).
Proof.
  eexists. split; [vm_compute; reflexivity|]. repeat split. discriminate.
Qed.

(** ** Exhausting the rounds *)






(** ** A round without script *)

(** C7, as the code has it. When the answer of the language model holds no
    script, the generation step leaves the iteration count and the current
    script as they were and appends one corrective message to the message
    history, after the prompt and the answer; the execution step follows
    all the same, and counts as an execution, with the iteration count
    still unchanged after it. *)
Theorem round_without_script
    (env : Env) (verilog sdc : str) (limit : Z) (n : nat) (c : Config) :
  run_yosys_script_loop env verilog sdc limit n = Ok c ->
  node c = generate_node ->
  usable env (llm_calls (world c)) = false ->
  exists c1 c2 h p,
    step env c = Ok c1 /\ step env c1 = Ok c2
    /\ node c1 = execute_node
    /\ iteration (state c1) = iteration (state c)
    /\ current_script (state c1) = current_script (state c)
    /\ message_history (state c) = Some h
    /\ message_history (state c1)
       = Some (h ++ [HumanMessage p;
                     AIMessage (llm_invoke env (llm_calls (world c)));
                     HumanMessage corrective_prompt])
    /\ llm_calls (world c1) = S (llm_calls (world c))
    /\ exec_calls (world c1) = exec_calls (world c)
    /\ exec_calls (world c2) = S (exec_calls (world c))
    /\ llm_calls (world c2) = S (llm_calls (world c))
    /\ iteration (state c2) = iteration (state c)
    /\ message_history (state c2) = message_history (state c1).
Proof.
  intros Hrun Hn Hu.
  pose proof (run_reaches_inv _ _ _ _ _ _ Hrun) as Hinv.
  destruct (step_generate_inv env limit c Hinv Hn)
    as (c1 & Hs1 & H1 & Hn1 & Hl1 & He1 & _ & _ & Hcase).
  rewrite Hu in Hcase. destruct Hcase as (Hcs & Hi & h & p & Hh & Hh1).
  destruct (step_execute_inv env limit c1 H1 Hn1)
    as (c2 & script & Hs2 & _ & _ & Hl2 & He2 & Hi2 & _ & _ & Hm2 & _).
  exists c1, c2, h, p. repeat split; auto; congruence.
Qed.

Lemma round_without_script_witness :
  exists c c1 c2,
    run_yosys_script_loop (env_failing [py "no script here"])
      (py "counter.v") (py "counter.sdc") 3 0 = Ok c
    /\ step (env_failing [py "no script here"]) c = Ok c1
    /\ step (env_failing [py "no script here"]) c1 = Ok c2
    /\ iteration (state c1) = iteration (state c)
    /\ exec_calls (world c2) = S (exec_calls (world c)).
Proof.
  eexists.
  match goal with
  | |- exists c1 c2, run_yosys_script_loop ?e ?v ?s ?l ?n = Ok ?c /\ _ =>
      assert (Hrun : run_yosys_script_loop e v s l n = Ok c)
        by reflexivity;
      destruct (round_without_script e v s l n c Hrun)
        as (c1 & c2 & h & p & Hs1 & Hs2 & _ & Hi & _ & _ & _ & _ & _ & He & _);
        [reflexivity | vm_compute; reflexivity |];
      exists c1, c2; repeat split; assumption
  end.
Defined.

(** C7 fails as stated: the first answer holds no script, and the script
    file is executed all the same. *)
Lemma unusable_round_is_executed :
  exists c1 c2,
    run_yosys_script_loop (env_failing [py "no script here"])
      (py "counter.v") (py "counter.sdc") 3 1 = Ok c1
    /\ run_yosys_script_loop (env_failing [py "no script here"])
         (py "counter.v") (py "counter.sdc") 3 2 = Ok c2
    /\ usable (env_failing [py "no script here"]) 0 = false
    /\ node c1 = execute_node
    /\ iteration (state c1) = Some 0%Z
    /\ exec_calls (world c1) = 0
    /\ exec_calls (world c2) = 1.
Proof.
  eexists. eexists. split; [vm_compute; reflexivity|].
  split; [vm_compute; reflexivity|]. repeat split.
Qed.

(** ** The temporary script file *)

(** As long as no execution leaves through an outer handler after writing
    its file, a step leaves the set of temporary files as it was: the
    branches for success, timeout and non-zero exit status remove the
    file. *)
Lemma step_keeps_files (env : Env) (limit : Z) (c : Config) :
  (forall k, leaves_file env k = false) ->
  Inv env limit c ->
  exists c', step env c = Ok c' /\ Inv env limit c'
             /\ tmp_files (world c') = tmp_files (world c).
Proof.
  intros Hno H. destruct (node c) eqn:Hn.
  - destruct (step_generate_inv env limit c H Hn)
      as (c' & ? & ? & _ & _ & _ & ? & _); eauto.
  - destruct (step_execute_inv env limit c H Hn)
      as (c' & script & ? & ? & _ & _ & _ & _ & _ & _ & _ & _ & Ht).
    rewrite Hno in Ht. eauto.
  - destruct (step_evaluate_inv env limit c H Hn)
      as (c' & f & it & ? & ? & Hw & _). rewrite <- Hw. eauto.
  - exists c. split; [now apply step_END | auto].
Qed.

Lemma files_removed (env : Env) (verilog sdc : str) (limit : Z) (n : nat) :
  (forall k, leaves_file env k = false) ->
  exists c, run_yosys_script_loop env verilog sdc limit n = Ok c
            /\ tmp_files (world c) = [].
Proof.
  intros Hno. unfold run_yosys_script_loop.
  assert (H : forall c, Inv env limit c ->
            exists c', steps env n c = Ok c' /\ Inv env limit c'
                       /\ tmp_files (world c') = tmp_files (world c)).
  { induction n as [|n IH]; intros c Hc; simpl; [eauto|].
    destruct (step_keeps_files env limit c Hno Hc) as (c1 & -> & H1 & Hf1).
    simpl. destruct (IH c1 H1) as (c' & ? & ? & Hf). exists c'.
    split; [assumption|]. split; [assumption|]. congruence. }
  destruct (H _ (Inv_start env verilog sdc limit)) as (c & ? & _ & Hf).
  exists c. split; [assumption | exact Hf].
Qed.

(** C8 does not hold of the code. When [yosys] cannot be started (or any
    exception other than timeout and non-zero exit status leaves
    [subprocess.run]), the script file written for that execution is not
    removed: the run ends two transitions later and the file is still
    there, and stays. *)
Theorem fatal_execution_leaves_script_file
    (env : Env) (verilog sdc : str) (limit : Z) (n : nat) (c : Config)
    (script : str) (e : OuterExn) :
  run_yosys_script_loop env verilog sdc limit n = Ok c ->
  node c = execute_node ->
  current_script (state c) = Some script ->
  temp_file env (exec_calls (world c)) = TempWritten ->
  subprocess_run env (exec_calls (world c)) = RunFailed e ->
  exists c',
    run_yosys_script_loop env verilog sdc limit (n + 2) = Ok c'
    /\ node c' = END
    /\ In (exec_calls (world c), script) (tmp_files (world c'))
    /\ forall m,
         run_yosys_script_loop env verilog sdc limit (n + 2 + m) = Ok c'.
Proof.
  intros Hrun Hn Hcs Htmp Hsub.
  pose proof (run_reaches_inv _ _ _ _ _ _ Hrun) as Hinv.
  destruct (execute_then_evaluate env limit c Hinv Hn)
    as (c' & it & script' & Hs & _ & _ & Hcs' & _ & _ & _ & _ & _ & Hn' & Ht).
  assert (script' = script) by congruence. subst script'.
  unfold leaves_file, feedback_of in *. rewrite Htmp, Hsub in *. simpl in *.
  assert (Hrun' : run_yosys_script_loop env verilog sdc limit (n + 2) = Ok c')
    by (rewrite (run_add _ _ _ _ _ 2 _ Hrun); exact Hs).
  exists c'. repeat split; auto.
  - rewrite Ht. now left.
  - intros m. rewrite (run_add _ _ _ _ _ m _ Hrun'). now apply steps_END.
Qed.

Lemma fatal_execution_leaves_script_file_witness :
  exists c',
    run_yosys_script_loop env_no_yosys (py "counter.v") (py "counter.sdc") 5 3
      = Ok c'
    /\ node c' = END
    /\ In (0, py "synth") (tmp_files (world c')).
Proof.
  destruct (run_inv env_no_yosys (py "counter.v") (py "counter.sdc") 5 1)
    as (c & Hrun & _).
  assert (Hc : run_yosys_script_loop env_no_yosys (py "counter.v")
                 (py "counter.sdc") 5 1 = Ok c) by exact Hrun.
  vm_compute in Hrun. injection Hrun as Hrun.
  destruct (fatal_execution_leaves_script_file env_no_yosys (py "counter.v")
              (py "counter.sdc") 5 1 c (py "synth") FileNotFoundError Hc)
    as (c' & Hr & Hn & Hin & _);
    try (rewrite <- Hrun; reflexivity).
  exists c'. rewrite <- Hrun in Hin. repeat split; assumption.
Defined.

(** The failing input of C8, run: [yosys] is absent, the loop ends after
    the first round, and the temporary file of that round remains. *)
Example script_file_remains_without_yosys :
  exists c,
    run_yosys_script_loop env_no_yosys (py "counter.v") (py "counter.sdc") 5 3
      = Ok c
    /\ node c = END
    /\ feedback (state c) = Some (Some Error)
    /\ tmp_files (world c) = [(0, py "synth")].
Proof. eexists. split; [vm_compute; reflexivity|]. repeat split. Qed.

(** ** The output file name *)

(** C10. In a run started by [run_yosys_script_loop], which never raises,
    the field [output_file] is the empty string in every configuration,
    the final one included, and the guard under which
    [initialize_yosys_game] derives a file name from the Verilog path is
    false in every state of the run. *)
Theorem output_file_stays_empty
    (env : Env) (verilog sdc : str) (limit : Z) (n : nat) :
  exists c,
    run_yosys_script_loop env verilog sdc limit n = Ok c
    /\ output_file (state c) = Some []
    /\ derives_output_file (state c) = false
    /\ output_file (initialize_yosys_game (state c)) = Some [].
Proof.
  destruct (run_inv env verilog sdc limit n) as (c & Hrun & Hinv).
  exists c. split; [exact Hrun|].
  open_config c Hinv. simpl. repeat split.
Qed.

(** Without the key, the name is derived. *)
Example output_file_derived :
  output_file
    (initialize_yosys_game
       (mkState (Some (py "yosys_test/counter.v")) (Some (py "counter.sdc"))
          None None None None None None None None None None None))
  = Some (py "counter_synthesized_netlist.v").
Proof. vm_compute. reflexivity. Qed.

(** * Further properties *)

(** ** Script extraction *)

Lemma kept_lines_nonempty_join (text : str) :
  kept_lines text <> [] -> extract_script_from_text text <> [].
Proof.
  intros Hne. rewrite extract_script_is_join.
  pose proof (kept_lines_well_kept text) as H.
  destruct (kept_lines text) as [|l ls]; [congruence|].
  inversion H as [|? ? [Hcmd _] _]; subst.
  apply join_nl_nonempty. now apply looks_like_command_nonempty.
Qed.

(** X1. [extract_script_from_text] returns the empty string exactly when
    no line of the text, trimmed, starts with [#] or holds a Yosys command
    keyword: a single such line anywhere makes the answer usable. *)
Theorem extract_empty_iff (text : str) :
  extract_script_from_text text = [] <->
  (forall raw, In raw (split_nl text) -> ~ Qualifies (strip raw)).
Proof.
  split.
  - intros Hempty raw Hin HQ. apply looks_like_command_spec in HQ.
    apply (kept_lines_nonempty_join text); [|exact Hempty].
    unfold kept_lines. destruct (truthy _) eqn:T.
    + intros Hnil. rewrite Hnil in T. discriminate.
    + intros Hnil.
      assert (Hl : In (strip raw) (fallback_lines (split_nl text))).
      { unfold fallback_lines. apply filter_In. split; [|exact HQ].
        now apply in_map. }
      rewrite Hnil in Hl. exact Hl.
  - intros Hnone. rewrite extract_script_is_join.
    assert (H : Forall (fun _ => False) (kept_lines text)).
    { apply kept_lines_all. intros raw Hin Hcmd.
      apply (Hnone raw Hin). now apply looks_like_command_spec. }
    destruct (kept_lines text); [reflexivity | now inversion H].
Qed.

Lemma subseq_refl {A} (l : list A) : subseq l l.
Proof. induction l; constructor; assumption. Qed.

Lemma subseq_nil_l {A} (l : list A) : subseq [] l.
Proof. induction l; constructor; assumption. Qed.

Lemma subseq_app {A} (a1 a2 b1 b2 : list A) :
  subseq a1 b1 -> subseq a2 b2 -> subseq (a1 ++ a2) (b1 ++ b2).
Proof.
  intros H1 H2. induction H1; simpl; try constructor; assumption.
Qed.

Lemma subseq_filter {A} (f : A -> bool) (l : list A) : subseq (filter f l) l.
Proof.
  induction l as [|x l IH]; simpl; [constructor|].
  destruct (f x); constructor; assumption.
Qed.

Lemma subseq_In {A} (a b : list A) (x : A) : subseq a b -> In x a -> In x b.
Proof.
  intros H. induction H; simpl; intros Hin; auto.
  destruct Hin; auto.
Qed.

Lemma subseq_length {A} (a b : list A) :
  subseq a b -> List.length a <= List.length b.
Proof. intros H. induction H; simpl; lia. Qed.

(** A turn of the first loop keeps what was kept and adds the trimmed line
    or nothing. *)
Lemma scan_line_appends (sc : Scan) (raw : str) :
  script_lines (scan_line sc raw) = script_lines sc
  \/ script_lines (scan_line sc raw) = script_lines sc ++ [strip raw].
Proof.
  unfold scan_line.
  destruct (startswith (py "```") (strip raw)); [now left|].
  destruct (contains (py "yosys synthesis script") (lower (strip raw))
            || contains (py "here's the") (lower (strip raw))); [now left|].
  destruct (any_in_lower skip_words (strip raw)); [now left|].
  destruct ((in_code_block sc || in_script_section sc) && truthy (strip raw));
    [|now left].
  destruct (looks_like_command (strip raw)); [now right | now left].
Qed.

Lemma scan_lines_subseq (lines : list str) (sc : Scan) :
  exists kept,
    script_lines (fold_left scan_line lines sc) = script_lines sc ++ kept
    /\ subseq kept (map strip lines).
Proof.
  revert sc; induction lines as [|raw lines IH]; intros sc; simpl.
  - exists []. split; [now rewrite app_nil_r | constructor].
  - destruct (IH (scan_line sc raw)) as (kept & -> & Hsub).
    destruct (scan_line_appends sc raw) as [-> | ->].
    + exists kept. split; [reflexivity | now constructor].
    + exists (strip raw :: kept). split; [now rewrite <- app_assoc|].
      now constructor.
Qed.

Lemma kept_lines_subseq (text : str) :
  subseq (kept_lines text) (map strip (split_nl text)).
Proof.
  unfold kept_lines. destruct (truthy _).
  - destruct (scan_lines_subseq (split_nl text) (mkScan false false []))
      as (kept & -> & Hsub). exact Hsub.
  - apply subseq_filter.
Qed.

(** X2. The lines of the script returned by [extract_script_from_text] are
    lines of the text, trimmed, in the order of the text: the function
    leaves lines out, it never reorders, repeats or alters them beyond the
    trimming. *)
Theorem extract_script_subsequence (text : str) :
  extract_script_from_text text = []
  \/ subseq (split_nl (extract_script_from_text text))
            (map strip (split_nl text)).
Proof.
  destruct (kept_lines text) as [|l ls] eqn:E.
  - left. rewrite extract_script_is_join, E. reflexivity.
  - right. rewrite extract_script_lines by (rewrite E; discriminate).
    apply kept_lines_subseq.
Qed.

(** Without fence or marker the flags of the first loop stay off and it
    keeps nothing. *)
Lemma scan_lines_plain (lines : list str) :
  (forall raw, In raw lines ->
     is_fence (strip raw) = false /\ is_section_marker (strip raw) = false) ->
  fold_left scan_line lines (mkScan false false []) = mkScan false false [].
Proof.
  induction lines as [|raw lines IH]; intros H; simpl; [reflexivity|].
  destruct (H raw (or_introl eq_refl)) as [Hf Hm].
  unfold is_fence, is_section_marker in Hf, Hm.
  assert (Hs : scan_line (mkScan false false []) raw = mkScan false false []).
  { unfold scan_line. rewrite Hf, Hm.
    destruct (any_in_lower skip_words (strip raw)); reflexivity. }
  rewrite Hs. apply IH. intros r Hr. apply H. now right.
Qed.

(** X3. On a text without code fence and without script section marker,
    [extract_script_from_text] returns all the trimmed lines that start
    with [#] or hold a command keyword, joined by line breaks; the
    explanation words play no part. *)
Theorem extract_plain_text (text : str) :
  (forall raw, In raw (split_nl text) ->
     is_fence (strip raw) = false /\ is_section_marker (strip raw) = false) ->
  extract_script_from_text text
  = join_nl (filter looks_like_command (map strip (split_nl text))).
Proof.
  intros H. rewrite extract_script_is_join. unfold kept_lines.
  rewrite (scan_lines_plain _ H). reflexivity.
Qed.

Lemma extract_plain_text_witness :
  extract_script_from_text
    (py "  read_verilog counter.v" ++ newline :: py "You can adjust: synth")
  = py "read_verilog counter.v" ++ newline :: py "You can adjust: synth".
Proof.
  rewrite extract_plain_text.
  - vm_compute. reflexivity.
  - intros raw Hin. vm_compute in Hin.
    destruct Hin as [<- | [<- | []]]; split; vm_compute; reflexivity.
Defined.

(** The first loop keeps no fence, no marker line and no line with an
    explanation word. *)
Lemma scan_line_kept_strict (Q : str -> Prop) (sc : Scan) (raw : str) :
  (is_fence (strip raw) = false -> is_section_marker (strip raw) = false ->
   any_in_lower skip_words (strip raw) = false -> Q (strip raw)) ->
  Forall Q (script_lines sc) ->
  Forall Q (script_lines (scan_line sc raw)).
Proof.
  intros Hraw Hsc. unfold scan_line, is_fence, is_section_marker in *.
  destruct (startswith (py "```") (strip raw)); [exact Hsc|].
  destruct (contains (py "yosys synthesis script") (lower (strip raw))
            || contains (py "here's the") (lower (strip raw))); [exact Hsc|].
  destruct (any_in_lower skip_words (strip raw)); [exact Hsc|].
  destruct ((in_code_block sc || in_script_section sc) && truthy (strip raw));
    [|exact Hsc].
  destruct (looks_like_command (strip raw)); [|exact Hsc].
  simpl. apply Forall_app. split; [exact Hsc|].
  constructor; [now apply Hraw | constructor].
Qed.

Lemma first_pass_strict (text : str) :
  Forall (fun l => is_fence l = false /\ is_section_marker l = false
                   /\ any_in_lower skip_words l = false)
         (first_pass text).
Proof.
  unfold first_pass.
  assert (H : forall lines sc,
    Forall (fun l => is_fence l = false /\ is_section_marker l = false
                     /\ any_in_lower skip_words l = false) (script_lines sc) ->
    Forall (fun l => is_fence l = false /\ is_section_marker l = false
                     /\ any_in_lower skip_words l = false)
           (script_lines (fold_left scan_line lines sc))).
  { induction lines as [|raw lines IH]; intros sc Hsc; simpl; [exact Hsc|].
    apply IH. apply scan_line_kept_strict; [auto | exact Hsc]. }
  apply H. constructor.
Qed.

(** X4. When the text holds a fenced block or a script section from which
    the first loop keeps at least one line, no line of the returned script
    contains one of the explanation words (["step"], ["adjust"],
    ["note:"], ...), is a fence or is a marker line: a command that
    mentions such a word is silently left out of the script. *)
Theorem extract_fenced_drops_explanations (text : str) :
  first_pass text <> [] ->
  Forall (fun l => any_in_lower skip_words l = false
                   /\ is_fence l = false /\ is_section_marker l = false)
         (split_nl (extract_script_from_text text)).
Proof.
  intros Hne.
  assert (Hk : kept_lines text = first_pass text).
  { unfold kept_lines, first_pass in *.
    destruct (script_lines _); [congruence | reflexivity]. }
  rewrite extract_script_lines by (rewrite Hk; exact Hne).
  rewrite Hk. generalize (first_pass_strict text). apply Forall_impl.
  intros l (? & ? & ?). auto.
Qed.

Lemma extract_fenced_drops_explanations_witness :
  first_pass (py "```" ++ newline :: py "synth -top counter" ++ newline ::
              py "write_verilog steps.v" ++ newline :: py "```") <> []
  /\ extract_script_from_text
       (py "```" ++ newline :: py "synth -top counter" ++ newline ::
        py "write_verilog steps.v" ++ newline :: py "```")
     = py "synth -top counter"
  /\ Forall (fun l => any_in_lower skip_words l = false
                      /\ is_fence l = false /\ is_section_marker l = false)
       (split_nl (extract_script_from_text
          (py "```" ++ newline :: py "synth -top counter" ++ newline ::
           py "write_verilog steps.v" ++ newline :: py "```"))).
Proof.
  assert (H : first_pass (py "```" ++ newline :: py "synth -top counter"
                ++ newline :: py "write_verilog steps.v" ++ newline :: py "```")
              <> []) by (vm_compute; discriminate).
  split; [exact H|]. split; [vm_compute; reflexivity|].
  exact (extract_fenced_drops_explanations _ H).
Defined.

(** ** [initialize_yosys_game] *)

Ltac setdefault_closed :=
  intros; unfold setdefault;
  match goal with s : YosysAgentState |- _ => destruct s end; simpl;
  match goal with |- match ?o with _ => _ end = _ => destruct o end;
  reflexivity.

Lemma setdefault_iteration v s :
  setdefault iteration set_iteration v s
  = set_iteration (or_default v (iteration s)) s.
Proof. setdefault_closed. Qed.

Lemma setdefault_max_iterations v s :
  setdefault max_iterations set_max_iterations v s
  = set_max_iterations (or_default v (max_iterations s)) s.
Proof. setdefault_closed. Qed.

Lemma setdefault_feedback v s :
  setdefault feedback set_feedback v s
  = set_feedback (or_default v (feedback s)) s.
Proof. setdefault_closed. Qed.

Lemma setdefault_game_over v s :
  setdefault game_over set_game_over v s
  = set_game_over (or_default v (game_over s)) s.
Proof. setdefault_closed. Qed.

Lemma setdefault_current_script v s :
  setdefault current_script set_current_script v s
  = set_current_script (or_default v (current_script s)) s.
Proof. setdefault_closed. Qed.

Lemma setdefault_last_script v s :
  setdefault last_script set_last_script v s
  = set_last_script (or_default v (last_script s)) s.
Proof. setdefault_closed. Qed.

Lemma setdefault_execution_log v s :
  setdefault execution_log set_execution_log v s
  = set_execution_log (or_default v (execution_log s)) s.
Proof. setdefault_closed. Qed.

Lemma setdefault_last_execution_log v s :
  setdefault last_execution_log set_last_execution_log v s
  = set_last_execution_log (or_default v (last_execution_log s)) s.
Proof. setdefault_closed. Qed.

Lemma setdefault_error_details v s :
  setdefault error_details set_error_details v s
  = set_error_details (or_default v (error_details s)) s.
Proof. setdefault_closed. Qed.

Lemma setdefault_message_history v s :
  setdefault message_history set_message_history v s
  = set_message_history (or_default v (message_history s)) s.
Proof. setdefault_closed. Qed.

(** The state that [initialize_yosys_game] returns, key by key. *)
Lemma initialize_closed_form (s : YosysAgentState) :
  initialize_yosys_game s =
  mkState (verilog_path s) (sdc_path s)
    (Some (or_default 0%Z (iteration s)))
    (Some (or_default 5%Z (max_iterations s)))
    (Some (or_default [] (current_script s)))
    (Some (or_default None (last_script s)))
    (Some (or_default [] (execution_log s)))
    (Some (or_default None (last_execution_log s)))
    (Some (or_default None (feedback s)))
    (Some (or_default false (game_over s)))
    (Some (or_default [SystemMessage system_prompt] (message_history s)))
    (match output_file s, verilog_path s with
     | Some o, _ => Some o
     | None, Some (c :: p) => Some (derived_output_file (c :: p))
     | None, _ => None
     end)
    (Some (or_default [] (error_details s))).
Proof.
  unfold initialize_yosys_game. cbv zeta.
  rewrite setdefault_iteration, setdefault_max_iterations, setdefault_feedback,
    setdefault_game_over, setdefault_current_script, setdefault_last_script,
    setdefault_execution_log, setdefault_last_execution_log,
    setdefault_error_details, setdefault_message_history.
  destruct s as [vp sp it mx cs ls el ll fb go mh out ed].
  unfold derives_output_file, derived_output_file. simpl.
  destruct out, vp as [[|c p]|]; reflexivity.
Qed.

(** X5. [initialize_yosys_game] never changes a key that is present, adds
    the ten keys it has a default for, and applying it twice is the same
    as applying it once. *)
Theorem initialize_keeps_and_completes (s : YosysAgentState) :
  extends s (initialize_yosys_game s)
  /\ present (iteration (initialize_yosys_game s))
     && present (max_iterations (initialize_yosys_game s))
     && present (feedback (initialize_yosys_game s))
     && present (game_over (initialize_yosys_game s))
     && present (current_script (initialize_yosys_game s))
     && present (last_script (initialize_yosys_game s))
     && present (execution_log (initialize_yosys_game s))
     && present (last_execution_log (initialize_yosys_game s))
     && present (error_details (initialize_yosys_game s))
     && present (message_history (initialize_yosys_game s)) = true
  /\ initialize_yosys_game (initialize_yosys_game s) = initialize_yosys_game s.
Proof.
  split; [|split].
  - rewrite initialize_closed_form. unfold extends. simpl.
    repeat split; intros v Hv; rewrite Hv; reflexivity.
  - rewrite initialize_closed_form. reflexivity.
  - rewrite (initialize_closed_form (initialize_yosys_game s)).
    rewrite initialize_closed_form. simpl.
    destruct (output_file s), (verilog_path s) as [[|c p]|]; reflexivity.
Qed.

(** ** The derived output file name *)

Lemma after_last_skipn (c : ascii) (p : str) :
  ~ In c (skipn (after_last c p) p).
Proof.
  induction p as [|a p IH]; simpl; [tauto|].
  destruct (after_last c p) as [|k] eqn:E.
  - destruct (Ascii.eqb a c) eqn:Eq; simpl.
    + exact IH.
    + intros [H | H]; [|now apply IH].
      subst a. now rewrite Ascii.eqb_refl in Eq.
  - exact IH.
Qed.

Lemma basename_no_slash (p : str) : ~ In "/"%char (basename p).
Proof. apply after_last_skipn. Qed.

Lemma basename_suffix (p : str) : exists dir, p = dir ++ basename p.
Proof.
  exists (firstn (after_last "/"%char p) p). unfold basename.
  now rewrite firstn_skipn.
Qed.

Lemma splitext_root_prefix (p : str) : exists ext, p = splitext_root p ++ ext.
Proof.
  unfold splitext_root.
  destruct (after_last "/"%char p <? after_last "."%char p);
    [destruct (forallb _ _)|].
  - exists []. now rewrite app_nil_r.
  - exists (skipn (after_last "."%char p - 1) p). now rewrite firstn_skipn.
  - exists []. now rewrite app_nil_r.
Qed.

Lemma after_last_zero (c : ascii) (x : str) :
  after_last c x = 0 <-> ~ In c x.
Proof.
  induction x as [|a x IH]; simpl; [tauto|].
  destruct (after_last c x) as [|k] eqn:E.
  - destruct (Ascii.eqb_spec a c) as [-> | Hne].
    + split; [discriminate | intros H; exfalso; apply H; now left].
    + split; [|reflexivity]. intros _ [H | H]; [congruence|].
      now apply IH.
  - split; [discriminate|]. intros H. exfalso.
    assert (Hx : ~ In c x) by (intros Hin; apply H; now right).
    apply IH in Hx. discriminate.
Qed.

Lemma after_last_split (c : ascii) (x : str) (k : nat) :
  after_last c x = S k ->
  exists pre post,
    x = pre ++ c :: post /\ List.length pre = k /\ ~ In c post.
Proof.
  revert k; induction x as [|a x IH]; intros k; simpl; [discriminate|].
  destruct (after_last c x) as [|k'] eqn:E.
  - destruct (Ascii.eqb_spec a c) as [-> | Hne]; [|discriminate].
    intros H. injection H as <-. exists [], x.
    split; [reflexivity|]. split; [reflexivity|]. now apply after_last_zero.
  - intros H. injection H as <-.
    destruct (IH k' eq_refl) as (pre & post & -> & Hlen & Hpost).
    exists (a :: pre), post. simpl. auto.
Qed.

Lemma firstn_length_app {A} (pre post : list A) :
  firstn (List.length pre) (pre ++ post) = pre.
Proof.
  induction pre as [|a pre IH]; simpl; [now destruct post | now f_equal].
Qed.

Lemma skipn_S_length_app {A} (pre post : list A) (c : A) :
  skipn (S (List.length pre)) (pre ++ c :: post) = post.
Proof. induction pre as [|a pre IH]; simpl; auto. Qed.

(** [os.path.basename]: the path is a directory part, empty or ending with
    [/], followed by the base name, which holds no [/]. *)
Lemma basename_spec (p : str) :
  exists dir,
    p = dir ++ basename p /\ ~ In "/"%char (basename p)
    /\ (dir = [] \/ exists d, dir = d ++ ["/"%char]).
Proof.
  unfold basename. destruct (after_last "/"%char p) as [|k] eqn:E.
  - exists []. split; [reflexivity|]. split; [|now left].
    now apply after_last_zero.
  - destruct (after_last_split _ _ _ E) as (pre & post & -> & <- & Hpost).
    exists (pre ++ ["/"%char]).
    rewrite skipn_S_length_app. split; [now rewrite <- app_assoc|].
    split; [exact Hpost | right; now exists pre].
Qed.

Lemma forallb_false_exists {A} (f : A -> bool) (l : list A) :
  forallb f l = false -> exists x, In x l /\ f x = false.
Proof.
  induction l as [|a l IH]; simpl; [discriminate|].
  destruct (f a) eqn:E; simpl.
  - intros H. destruct (IH H) as (x & Hin & Hx). exists x. auto.
  - intros _. exists a. auto.
Qed.

(** [os.path.splitext] on a name without [/]: the extension is empty when
    every dot of the name is one of its leading dots, and otherwise it
    starts at the last dot of the name, with a character other than a dot
    before it. *)
Lemma splitext_root_spec (b : str) :
  ~ In "/"%char b ->
  exists ext,
    b = splitext_root b ++ ext
    /\ ((ext = []
         /\ exists dots rest,
              b = dots ++ rest /\ Forall (fun ch => ch = "."%char) dots
              /\ ~ In "."%char rest)
        \/ (exists e,
              ext = "."%char :: e /\ ~ In "."%char e
              /\ exists ch, In ch (splitext_root b) /\ ch <> "."%char)).
Proof.
  intros Hb. apply after_last_zero in Hb. unfold splitext_root. rewrite Hb.
  destruct (after_last "."%char b) as [|k] eqn:E.
  - exists []. simpl. split; [now rewrite app_nil_r|]. left.
    split; [reflexivity|]. exists [], b. split; [reflexivity|].
    split; [constructor | now apply after_last_zero].
  - destruct (after_last_split _ _ _ E) as (pre & post & -> & <- & Hpost).
    change (0 <? S (List.length pre)) with true. cbv iota.
    replace (S (List.length pre) - 1 - 0) with (List.length pre) by lia.
    replace (S (List.length pre) - 1) with (List.length pre) by lia.
    change (skipn 0 (pre ++ "."%char :: post)) with (pre ++ "."%char :: post).
    rewrite firstn_length_app.
    destruct (forallb (Ascii.eqb "."%char) pre) eqn:F.
    + exists []. split; [now rewrite app_nil_r|]. left.
      split; [reflexivity|]. exists (pre ++ ["."%char]), post.
      split; [now rewrite <- app_assoc|]. split; [|exact Hpost].
      apply Forall_app. split; [|now repeat constructor].
      apply Forall_forall. intros ch Hch.
      rewrite forallb_forall in F. specialize (F ch Hch).
      apply Ascii.eqb_eq in F. now subst.
    + exists ("."%char :: post). split; [reflexivity|]. right.
      exists post. split; [reflexivity|]. split; [exact Hpost|].
      destruct (forallb_false_exists _ _ F) as (ch & Hin & Hch).
      exists ch. split; [exact Hin|]. intros ->.
      now rewrite Ascii.eqb_refl in Hch.
Qed.

(** X6. When the key ["output_file"] is absent and the Verilog path is not
    empty, [initialize_yosys_game] sets the output file to the base name of
    the Verilog path, cut at its extension, followed by
    [_synthesized_netlist.v].  The path is [dir ++ root ++ ext], where
    [dir] is empty or ends with the last [/] of the path, and [ext] is
    empty when every dot of the base name is a leading dot and otherwise
    starts at its last dot, after a character other than a dot; the output
    file is [root] followed by the suffix, and holds no [/], so that the
    directory of the Verilog file is never part of it. *)
Theorem derived_output_file_in_cwd (s : YosysAgentState) (p : str) :
  output_file s = None ->
  verilog_path s = Some p ->
  p <> [] ->
  exists dir root ext,
    output_file (initialize_yosys_game s)
    = Some (root ++ py "_synthesized_netlist.v")
    /\ root = splitext_root (basename p)
    /\ p = dir ++ root ++ ext
    /\ (dir = [] \/ exists d, dir = d ++ ["/"%char])
    /\ ~ In "/"%char (root ++ ext)
    /\ ((ext = []
         /\ exists dots rest,
              root = dots ++ rest /\ Forall (fun ch => ch = "."%char) dots
              /\ ~ In "."%char rest)
        \/ (exists e,
              ext = "."%char :: e /\ ~ In "."%char e
              /\ exists ch, In ch root /\ ch <> "."%char))
    /\ ~ In "/"%char (root ++ py "_synthesized_netlist.v").
Proof.
  intros Hout Hvp Hp.
  destruct (basename_spec p) as (dir & Hdir & Hbase & Hd).
  destruct (splitext_root_spec (basename p) Hbase) as (ext & Hext & Hcases).
  exists dir, (splitext_root (basename p)), ext.
  rewrite initialize_closed_form. simpl. rewrite Hout, Hvp.
  destruct p as [|c p]; [congruence|].
  split; [reflexivity|]. split; [reflexivity|].
  split; [now rewrite <- Hext|]. split; [exact Hd|].
  split; [now rewrite <- Hext|]. split.
  - destruct Hcases as [(-> & dots & rest & Hb & Hdots & Hrest) | Hright].
    + left. split; [reflexivity|]. exists dots, rest.
      rewrite app_nil_r in Hext. rewrite <- Hext. auto.
    + right. exact Hright.
  - intros Hin. apply in_app_or in Hin. destruct Hin as [Hin | Hin].
    + apply Hbase. rewrite Hext. apply in_or_app. now left.
    + vm_compute in Hin. intuition discriminate.
Qed.

Lemma derived_output_file_in_cwd_witness :
  output_file
    (initialize_yosys_game
       (mkState (Some (py "yosys_test/counter.v")) (Some (py "counter.sdc"))
          None None None None None None None None None None None))
  = Some (py "counter_synthesized_netlist.v").
Proof.
  destruct (derived_output_file_in_cwd
              (mkState (Some (py "yosys_test/counter.v"))
                 (Some (py "counter.sdc"))
                 None None None None None None None None None None None)
              (py "yosys_test/counter.v") eq_refl eq_refl)
    as (dir & root & ext & H & Hroot & _).
  - vm_compute. discriminate.
  - rewrite H, Hroot. vm_compute. reflexivity.
Defined.

(** ** Missing keys *)

(** X7. [generate_yosys_script] raises [KeyError] exactly in three cases,
    and names the first key it misses: the state has no Verilog path; or
    it has one but no SDC path; or it has both but no output file while
    the Verilog path is the empty string, from which no name is derived.
    In every other case it returns, whatever else the state lacks. *)
Theorem generate_key_errors (env : Env) (s : YosysAgentState) (w : World) :
  match verilog_path s, sdc_path s, output_file s with
  | None, _, _ => generate_yosys_script env s w = KeyError "verilog_path"
  | Some _, None, _ => generate_yosys_script env s w = KeyError "sdc_path"
  | Some [], Some _, None =>
      generate_yosys_script env s w = KeyError "output_file"
  | _, _, _ => exists r, generate_yosys_script env s w = Ok r
  end.
Proof.
  unfold generate_yosys_script. rewrite initialize_closed_form.
  destruct s as [vp sp it mx cs ls el ll fb go mh out ed]. simpl.
  destruct (or_default 0%Z it =? 0)%Z;
    destruct vp as [[|c p]|], sp, out; simpl; try reflexivity;
    destruct (truthy (extract_script_from_text (llm_invoke env (llm_calls w))));
    eexists; reflexivity.
Qed.

(** ** [execute_yosys_script] *)

(** X8. [execute_yosys_script] raises only when the state has no current
    script, and then it raises [KeyError].  With a current script it
    returns whatever the temporary file layer and [yosys] do: it counts
    one execution, stores the feedback of that execution, copies the
    script and the new log to [last_script] and [last_execution_log], sets
    [game_over] on success and on error and leaves it alone otherwise, and
    does not touch the iteration count, the limit, the script or the
    message history. *)
Theorem execute_never_fails_with_script
    (env : Env) (s : YosysAgentState) (w : World) :
  match current_script s with
  | None => execute_yosys_script env s w = KeyError "current_script"
  | Some script =>
      exists s' files log,
        execute_yosys_script env s w
        = Ok (s', mkWorld (llm_calls w) (S (exec_calls w)) files)
        /\ feedback s' = Some (Some (feedback_of env (exec_calls w)))
        /\ last_script s' = Some (Some script)
        /\ execution_log s' = Some log
        /\ last_execution_log s' = Some (Some log)
        /\ game_over s'
           = (match feedback_of env (exec_calls w) with
              | Success | Error => Some true
              | _ => game_over s
              end)
        /\ current_script s' = Some script
        /\ iteration s' = iteration s
        /\ max_iterations s' = max_iterations s
        /\ message_history s' = message_history s
        /\ output_file s' = output_file s
  end.
Proof.
  destruct s as [vp sp it mx cs ls el ll fb go mh out ed].
  unfold execute_yosys_script, try_execute, feedback_of. simpl.
  destruct cs as [script|].
  - destruct (temp_file env (exec_calls w)) as [|[|msg]]; simpl;
      [destruct (subprocess_run env (exec_calls w))
         as [so se| |rc so se|[|msg]]; simpl|..];
      eexists; eexists; eexists; (split; [reflexivity|]);
      simpl; repeat split.
  - destruct (temp_file env (exec_calls w)) as [|[|msg]]; reflexivity.
Qed.

(** ** The termination flag, on any state *)

(** X9. No node resets the termination flag: from any configuration
    whose state has [game_over] true, whatever else it holds or lacks, a
    transition that does not raise leads to a state with [game_over]
    true. *)
Theorem game_over_is_never_reset (env : Env) (c c' : Config) :
  game_over (state c) = Some true ->
  step env c = Ok c' ->
  game_over (state c') = Some true.
Proof.
  destruct c as [nd s w]. destruct s as [vp sp it mx cs ls el ll fb go mh out ed].
  simpl. intros ->. unfold step. simpl. destruct nd.
  - unfold generate_yosys_script. rewrite initialize_closed_form. simpl.
    destruct (or_default 0%Z it =? 0)%Z;
      destruct vp as [[|c p]|], sp, out; simpl;
      try (intros H; discriminate H);
      destruct (truthy (extract_script_from_text (llm_invoke env (llm_calls w))));
      simpl; intros H; injection H as <-; reflexivity.
  - unfold execute_yosys_script, try_execute. simpl.
    destruct cs as [script|].
    + destruct (temp_file env (exec_calls w)) as [|[|msg]]; simpl;
        [destruct (subprocess_run env (exec_calls w))
           as [so se| |rc so se|[|msg]]; simpl|..];
        intros H; injection H as <-; reflexivity.
    + destruct (temp_file env (exec_calls w)) as [|[|msg]]; discriminate.
  - unfold evaluate_execution, should_continue_yosys. simpl.
    destruct fb as [fb|]; simpl; [|discriminate].
    destruct (is_success fb); simpl.
    + intros H; injection H as <-; reflexivity.
    + destruct it as [i|]; simpl; [|discriminate].
      destruct mx as [m|]; simpl; [|discriminate].
      destruct (i >=? m)%Z; simpl; intros H; injection H as <-; reflexivity.
  - intros H; injection H as <-; reflexivity.
Qed.

Lemma game_over_is_never_reset_witness :
  exists c',
    step env_succeeding
      (mkConfig evaluate_node
         (mkState None None None None None None None None
            (Some (Some Success)) (Some true) None None None)
         no_world) = Ok c'
    /\ game_over (state c') = Some true.
Proof.
  eexists. split; [reflexivity|].
  eapply (game_over_is_never_reset env_succeeding
            (mkConfig evaluate_node
               (mkState None None None None None None None None
                  (Some (Some Success)) (Some true) None None None)
               no_world)); reflexivity.
Defined.

(** ** [evaluate_execution] *)

(** X10. [evaluate_execution] changes nothing but the feedback and the
    termination flag, and evaluating its result again changes nothing any
    more. *)
Theorem evaluate_is_idempotent (s s' : YosysAgentState) :
  evaluate_execution s = Ok s' ->
  evaluate_execution s' = Ok s'
  /\ forall f g, set_feedback f (set_game_over g s')
                 = set_feedback f (set_game_over g s).
Proof.
  destruct s as [vp sp it mx cs ls el ll fb go mh out ed].
  unfold evaluate_execution. simpl.
  destruct fb as [fb|]; simpl; [|discriminate].
  destruct (is_success fb) eqn:S; simpl.
  - intros H; injection H as <-. simpl. rewrite S. simpl.
    split; reflexivity.
  - destruct it as [i|]; simpl; [|discriminate].
    destruct mx as [m|]; simpl; [|discriminate].
    destruct (i >=? m)%Z eqn:G; simpl; intros H; injection H as <-; simpl.
    + rewrite G. split; reflexivity.
    + rewrite S. simpl. rewrite G. split; reflexivity.
Qed.

Lemma evaluate_is_idempotent_witness :
  evaluate_execution
    (set_feedback (Some MaxIterationsReached)
       (set_game_over true
          (set_feedback (Some Failure) (set_iteration 2 (initial_state [] [] 2)))))
  = Ok (set_feedback (Some MaxIterationsReached)
          (set_game_over true
             (set_feedback (Some Failure)
                (set_iteration 2 (initial_state [] [] 2))))).
Proof.
  apply (evaluate_is_idempotent
           (set_feedback (Some Failure) (set_iteration 2 (initial_state [] [] 2)))).
  reflexivity.
Defined.

(** ** Whole runs *)

Lemma run_S_last (env : Env) (verilog sdc : str) (limit : Z) (n : nat)
    (c : Config) :
  run_yosys_script_loop env verilog sdc limit n = Ok c ->
  run_yosys_script_loop env verilog sdc limit (S n) = step env c.
Proof.
  intros H. rewrite <- Nat.add_1_r, (run_add _ _ _ _ _ 1 _ H). simpl.
  now destruct (step env c).
Qed.

Lemma leaves_file_error (env : Env) (k : nat) :
  leaves_file env k = true -> feedback_of env k = Error.
Proof.
  unfold leaves_file, feedback_of.
  destruct (temp_file env k); [destruct (subprocess_run env k)|];
    congruence.
Qed.

Lemma step_last_execution (env : Env) (limit : Z) (c c' : Config) :
  Inv env limit c -> last_execution env limit c ->
  step env c = Ok c' -> last_execution env limit c'.
Proof.
  intros Hinv Hlast Hstep. unfold last_execution in *.
  destruct (node c) eqn:Hn.
  - destruct (step_generate_inv env limit c Hinv Hn)
      as (c1 & Hs & _ & Hn1 & _ & _ & Ht & _).
    assert (c1 = c') by congruence. subst c1. rewrite Hn1. congruence.
  - destruct (step_execute_inv env limit c Hinv Hn)
      as (c1 & script & Hs & _ & Hn1 & _ & He & _ & _ & _ & _ & Hf & Ht).
    assert (c1 = c') by congruence. subst c1. rewrite Hn1.
    exists (exec_calls (world c)), script.
    rewrite Hlast, app_nil_r in Ht. auto.
  - destruct (step_evaluate_inv env limit c Hinv Hn)
      as (c1 & f & it & Hs & _ & Hw & Hf & _ & Hi & _ & Hf1 & _ & Hn1).
    assert (c1 = c') by congruence. subst c1.
    destruct Hlast as (k & script & He & Hfk & Ht).
    assert (f = feedback_of env k) by congruence. subst f.
    rewrite Hn1, Hw. destruct (stops (feedback_of env k) it limit) eqn:St.
    + exists k, it, script. auto.
    + destruct (leaves_file env k) eqn:L; [|exact Ht].
      rewrite (leaves_file_error _ _ L) in St. discriminate.
  - rewrite (step_END env c Hn) in Hstep. injection Hstep as <-.
    rewrite Hn. exact Hlast.
Qed.

Lemma run_last_execution (env : Env) (verilog sdc : str) (limit : Z) (n : nat) :
  exists c, run_yosys_script_loop env verilog sdc limit n = Ok c
            /\ Inv env limit c /\ last_execution env limit c.
Proof.
  induction n as [|n (c & Hrun & Hinv & Hlast)].
  - exists (start verilog sdc limit).
    split; [reflexivity|]. split; [apply Inv_start | reflexivity].
  - destruct (step_inv env limit c Hinv) as (c' & Hs & Hinv').
    exists c'. split; [now rewrite (run_S_last _ _ _ _ _ _ Hrun)|].
    split; [exact Hinv'|]. exact (step_last_execution _ _ _ _ Hinv Hlast Hs).
Qed.

(** X11. A call of the graph from [run_yosys_script_loop] never raises
    [KeyError]: whatever the recursion limit of the graph library, the
    call returns a final state, with [game_over] true and the limit
    given, or is stopped by that recursion limit.  In each configuration
    it goes through, the iteration count is the number of answers of the
    language model, so far, that held a script; it is at most the limit,
    or 1 when the limit is smaller; the limit is the one given; and the
    executions are as many as the calls of the language model, or one
    less. *)
Theorem invoke_never_raises_key_error
    (env : Env) (budget : nat) (verilog sdc : str) (limit : Z) :
  (graph_invoke env budget verilog sdc limit = GraphRecursionError
   \/ exists final,
        graph_invoke env budget verilog sdc limit = Returned final
        /\ game_over final = Some true
        /\ max_iterations final = Some limit)
  /\ forall n, n <= budget ->
       exists c,
         run_yosys_script_loop env verilog sdc limit n = Ok c
         /\ iteration (state c)
            = Some (Z.of_nat (usable_count env (llm_calls (world c))))
         /\ (Z.of_nat (usable_count env (llm_calls (world c)))
             <= Z.max 1 limit)%Z
         /\ max_iterations (state c) = Some limit
         /\ exec_calls (world c) <= llm_calls (world c)
            <= S (exec_calls (world c)).
Proof.
  split.
  - unfold graph_invoke.
    destruct (run_inv env verilog sdc limit budget) as (c & -> & Hinv).
    destruct Hinv as (_ & Hmx & _ & _ & _ & Hnode). unfold node_inv in Hnode.
    destruct (node c); try (now left).
    right. exists (state c). split; [reflexivity|]. split; [tauto | exact Hmx].
  - intros n _.
    destruct (run_inv env verilog sdc limit n) as (c & Hrun & Hinv).
    exists c. split; [exact Hrun|].
    destruct (Inv_calls env limit c Hinv) as [Hle Hb].
    pose proof (usable_count_le env (llm_calls (world c))) as Hu.
    destruct Hinv as (_ & Hmx & _ & Hit & _ & Hnode).
    split; [exact Hit|]. split; [lia|]. split; [exact Hmx|].
    unfold node_inv in Hnode. destruct (node c); lia.
Qed.

Lemma invoke_never_raises_key_error_witness :
  exists final,
    graph_invoke env_third_time 25 (py "counter.v") (py "counter.sdc") 3
    = Returned final
    /\ game_over final = Some true.
Proof.
  destruct (invoke_never_raises_key_error env_third_time 25 (py "counter.v")
              (py "counter.sdc") 3) as [[H | (final & H & Hgo & _)] _].
  - vm_compute in H. discriminate.
  - exists final. split; assumption.
Defined.

(** X12. When a run is over, the verdict that [run_yosys_script_loop]
    prints is decided by the last execution: success, with the iteration
    count and an empty output file name, when it succeeded; the error when
    it ended in an outer handler below the limit; and "maximum iterations"
    in every other case.  The verdict is never the failure, the timeout or
    [None]. *)
Theorem final_verdict_of_run
    (env : Env) (verilog sdc : str) (limit : Z) (n : nat) (c : Config) :
  run_yosys_script_loop env verilog sdc limit n = Ok c ->
  node c = END ->
  exists k it,
    exec_calls (world c) = S k
    /\ iteration (state c) = Some it
    /\ final_verdict (state c)
       = Ok (match feedback_of env k with
             | Success => ReportSuccess it []
             | Error => if (it <? limit)%Z then ReportError (Some Error)
                        else ReportMaxIterations limit
             | _ => ReportMaxIterations limit
             end).
Proof.
  intros Hrun Hn.
  destruct (run_last_execution env verilog sdc limit n) as (c' & Hrun' & Hinv & Hlast).
  assert (c' = c) by congruence. subst c'.
  unfold last_execution in Hlast. rewrite Hn in Hlast.
  destruct Hlast as (k & it & script & He & Hi & Hf & Hst & _).
  destruct Hinv as (_ & Hmx & Hout & _).
  exists k, it. split; [exact He|]. split; [exact Hi|].
  unfold final_verdict. rewrite Hf, Hi, Hmx, Hout. simpl.
  unfold evaluated, stops in *.
  destruct (feedback_of env k); simpl; try reflexivity;
    destruct (Z.geb_spec it limit), (Z.ltb_spec it limit);
    simpl; try reflexivity; try lia; try discriminate.
Qed.

Lemma final_verdict_of_run_witness :
  exists c,
    run_yosys_script_loop env_third_time (py "counter.v") (py "counter.sdc") 3 9
      = Ok c
    /\ final_verdict (state c) = Ok (ReportSuccess 3 []).
Proof.
  eexists. split; [vm_compute; reflexivity|].
  match goal with
  | |- final_verdict (state ?c) = _ =>
      destruct (final_verdict_of_run env_third_time (py "counter.v")
                  (py "counter.sdc") 3 9 c) as (k & it & Hk & Hi & Hv);
        [vm_compute; reflexivity | reflexivity |];
        rewrite Hv; injection Hk as <-; injection Hi as <-; reflexivity
  end.
Defined.

(** X13. At most one temporary script file is ever left behind by a run,
    and none as long as the loop goes on: whenever the run is about to
    generate or to execute, no temporary file exists. *)
Theorem at_most_one_file_left
    (env : Env) (verilog sdc : str) (limit : Z) (n : nat) :
  exists c,
    run_yosys_script_loop env verilog sdc limit n = Ok c
    /\ List.length (tmp_files (world c)) <= 1
    /\ (node c = generate_node \/ node c = execute_node ->
        tmp_files (world c) = []).
Proof.
  destruct (run_last_execution env verilog sdc limit n) as (c & Hrun & _ & Hlast).
  exists c. split; [exact Hrun|]. unfold last_execution in Hlast.
  destruct (node c).
  - rewrite Hlast. split; [simpl; lia | auto].
  - rewrite Hlast. split; [simpl; lia | auto].
  - destruct Hlast as (k & script & _ & _ & ->).
    split; [destruct (leaves_file env k); simpl; lia|].
    intros [H | H]; discriminate.
  - destruct Hlast as (k & it & script & _ & _ & _ & _ & ->).
    split; [destruct (leaves_file env k); simpl; lia|].
    intros [H | H]; discriminate.
Qed.

(** ** Termination *)


Lemma run_END_stays (env : Env) (verilog sdc : str) (limit : Z) (n m : nat)
    (c : Config) :
  run_yosys_script_loop env verilog sdc limit n = Ok c ->
  node c = END -> n <= m ->
  run_yosys_script_loop env verilog sdc limit m = Ok c.
Proof.
  intros Hrun Hn Hle. replace m with (n + (m - n)) by lia.
  rewrite (run_add _ _ _ _ _ (m - n) _ Hrun). now apply steps_END.
Qed.




Lemma usable_count_none (env : Env) (n : nat) :
  (forall k, usable env k = false) -> usable_count env n = 0.
Proof.
  intros H. induction n as [|n IH]; simpl; [reflexivity|].
  now rewrite H, IH.
Qed.

(** The transitions of the graph, without the recursion limit: with a
    limit of at least 1, no answer with a script and only recoverable
    failures, no configuration is final, the iteration count stays 0, and
    every third transition leads back to the generation step after one
    more execution. *)
Lemma rounds_without_script
    (env : Env) (verilog sdc : str) (limit : Z) :
  (1 <= limit)%Z ->
  (forall k, usable env k = false) ->
  (forall k, outcome env k = ExecRecoverable) ->
  forall n, exists c,
    run_yosys_script_loop env verilog sdc limit n = Ok c
    /\ node c <> END
    /\ iteration (state c) = Some 0%Z
    /\ exists c3,
         run_yosys_script_loop env verilog sdc limit (3 * n) = Ok c3
         /\ node c3 = generate_node
         /\ exec_calls (world c3) = n.
Proof.
  intros Hlim Hnone Hrec.
  assert (Hrounds : forall j, exists c,
            run_yosys_script_loop env verilog sdc limit (3 * j) = Ok c
            /\ node c = generate_node /\ llm_calls (world c) = j
            /\ exec_calls (world c) = j).
  { induction j as [|j (c & Hrun & Hgen & Hl & He)].
    - exists (start verilog sdc limit). repeat split.
    - pose proof (run_reaches_inv _ _ _ _ _ _ Hrun) as Hinv.
      destruct (one_round env limit c Hinv Hgen)
        as (c3 & Hs & _ & Hl3 & He3 & _ & Hn3).
      rewrite usable_count_none in Hn3 by exact Hnone.
      assert (Hst : stops (feedback_of env (exec_calls (world c))) 0 limit
                    = false).
      { destruct (outcome_recoverable _ _ (Hrec (exec_calls (world c))))
          as [-> | ->]; simpl; rewrite Z.geb_leb; apply Z.leb_gt; lia. }
      simpl Z.of_nat in Hn3. rewrite Hst in Hn3.
      exists c3. replace (3 * S j) with (3 * j + 3) by lia.
      rewrite (run_add _ _ _ _ _ 3 _ Hrun).
      repeat split; auto; congruence. }
  intros n.
  destruct (run_inv env verilog sdc limit n) as (c & Hrun & Hinv).
  exists c. split; [exact Hrun|]. split; [|split].
  - intros Hend. destruct (Hrounds n) as (c3 & Hrun3 & Hgen & _).
    assert (Hsame : run_yosys_script_loop env verilog sdc limit (3 * n) = Ok c)
      by (apply (run_END_stays _ _ _ _ n _ _ Hrun Hend); lia).
    assert (c3 = c) by congruence. subst c3. congruence.
  - destruct Hinv as (_ & _ & _ & Hit & _).
    now rewrite usable_count_none in Hit by exact Hnone.
  - destruct (Hrounds n) as (c3 & Hrun3 & Hgen & _ & He). eauto.
Qed.

(** X15. With a limit of at least 1, when no answer of the language model
    holds a script and every execution fails in a recoverable way, the
    call of the graph never returns a final state: whatever the recursion
    limit of the graph library, it ends with [GraphRecursionError].  The
    limit of the loop does not stop it: the iteration count stays 0, and
    after [3 j] node executions within the recursion limit the script has
    been executed [j] times. *)
Theorem invoke_never_returns_without_script
    (env : Env) (verilog sdc : str) (limit : Z) :
  (1 <= limit)%Z ->
  (forall k, usable env k = false) ->
  (forall k, outcome env k = ExecRecoverable) ->
  forall budget,
    graph_invoke env budget verilog sdc limit = GraphRecursionError
    /\ forall j, 3 * j <= budget ->
         exists c,
           run_yosys_script_loop env verilog sdc limit (3 * j) = Ok c
           /\ node c = generate_node
           /\ exec_calls (world c) = j
           /\ iteration (state c) = Some 0%Z.
Proof.
  intros Hlim Hnone Hrec budget. split.
  - unfold graph_invoke.
    destruct (rounds_without_script env verilog sdc limit Hlim Hnone Hrec budget)
      as (c & -> & Hn & _).
    destruct (node c); congruence.
  - intros j _.
    destruct (rounds_without_script env verilog sdc limit Hlim Hnone Hrec j)
      as (_ & _ & _ & _ & c3 & Hrun3 & Hgen & He).
    destruct (rounds_without_script env verilog sdc limit Hlim Hnone Hrec (3 * j))
      as (c & Hrun & _ & Hit & _).
    assert (c = c3) by congruence. subst c.
    exists c3. auto.
Qed.

Lemma invoke_never_returns_without_script_witness :
  graph_invoke
    (mkEnv (fun _ => py "no script here") (fun _ => TempWritten)
           (fun _ => TimeoutExpired))
    25 (py "counter.v") (py "counter.sdc") 2
  = GraphRecursionError.
Proof.
  apply (invoke_never_returns_without_script
           (mkEnv (fun _ => py "no script here") (fun _ => TempWritten)
                  (fun _ => TimeoutExpired))
           (py "counter.v") (py "counter.sdc") 2).
  - lia.
  - intros k. vm_compute. reflexivity.
  - intros k. reflexivity.
Defined.

(** ** The message history *)

Lemma step_generate_history (env : Env) (limit : Z) (c c' : Config) :
  Inv env limit c -> node c = generate_node -> step env c = Ok c' ->
  exists h p,
    message_history (state c) = Some h /\ is_prompt p = true
    /\ message_history (state c')
       = Some (h ++ [HumanMessage p;
                     AIMessage (llm_invoke env (llm_calls (world c)))]
                 ++ (if usable env (llm_calls (world c)) then []
                     else [HumanMessage corrective_prompt])).
Proof.
  intros H Hn. open_config c H. simpl in Hn; subst.
  unfold node_inv in Hnode; simpl in Hnode.
  destruct Hnode as (Hgo & Hcalls & Hbound). injection Hgo as ->. subst.
  unfold step, generate_yosys_script; simpl. unfold usable.
  destruct (truthy (extract_script_from_text (llm_invoke env llm))) eqn:U;
    destruct (Z.of_nat (usable_count env llm) =? 0)%Z;
    simpl; intros Hs; injection Hs as <-; simpl;
    eexists; eexists; (split; [reflexivity|]);
    (split; [|rewrite <- !app_assoc; reflexivity]); reflexivity.
Qed.

Lemma run_history (env : Env) (verilog sdc : str) (limit : Z) (n : nat) :
  exists c h,
    run_yosys_script_loop env verilog sdc limit n = Ok c
    /\ Inv env limit c
    /\ message_history (state c) = Some h
    /\ history_ok env (llm_calls (world c)) h.
Proof.
  induction n as [|n (c & h & Hrun & Hinv & Hh & Hok)].
  - exists (start verilog sdc limit), [].
    split; [reflexivity|]. split; [apply Inv_start|]. split; reflexivity.
  - destruct (node c) eqn:Hn.
    + destruct (step_generate_inv env limit c Hinv Hn)
        as (c' & Hs & Hinv' & _ & Hl & _).
      destruct (step_generate_history env limit c c' Hinv Hn Hs)
        as (h0 & p & Hh0 & Hp & Hh').
      assert (h0 = h) by congruence. subst h0.
      exists c'. eexists. split; [now rewrite (run_S_last _ _ _ _ _ _ Hrun)|].
      split; [exact Hinv'|]. split; [exact Hh'|].
      rewrite Hl. simpl. exists h, p. auto.
    + destruct (step_execute_inv env limit c Hinv Hn)
        as (c' & script & Hs & Hinv' & _ & Hl & _ & _ & _ & _ & Hm & _).
      exists c', h. split; [now rewrite (run_S_last _ _ _ _ _ _ Hrun)|].
      split; [exact Hinv'|]. split; congruence.
    + destruct (step_evaluate_inv env limit c Hinv Hn)
        as (c' & f & it & Hs & Hinv' & Hw & _ & _ & _ & Hm & _).
      exists c', h. split; [now rewrite (run_S_last _ _ _ _ _ _ Hrun)|].
      split; [exact Hinv'|]. split; congruence.
    + exists c, h. split; [|auto].
      rewrite (run_S_last _ _ _ _ _ _ Hrun). now apply step_END.
Qed.

Lemma history_ok_length (env : Env) (n : nat) (h : list Message) :
  history_ok env n h ->
  List.length h = 2 * n + unusable_count env n.
Proof.
  revert h; induction n as [|n IH]; intros h; simpl.
  - intros ->. reflexivity.
  - intros (h0 & p & H0 & _ & ->). rewrite !length_app, (IH h0 H0).
    destruct (usable env n); simpl; lia.
Qed.

Lemma history_ok_no_system (env : Env) (n : nat) (h : list Message) :
  history_ok env n h -> forallb (fun m => negb (is_system m)) h = true.
Proof.
  revert h; induction n as [|n IH]; intros h; simpl.
  - intros ->. reflexivity.
  - intros (h0 & p & H0 & _ & ->). rewrite !forallb_app, (IH h0 H0).
    destruct (usable env n); reflexivity.
Qed.

Lemma history_ok_answers (env : Env) (n : nat) (h : list Message) :
  history_ok env n h -> ai_contents h = map (llm_invoke env) (seq 0 n).
Proof.
  revert h; induction n as [|n IH]; intros h.
  - simpl. intros ->. reflexivity.
  - intros (h0 & p & H0 & _ & ->). unfold ai_contents in *.
    rewrite !flat_map_app, (IH h0 H0), seq_S, map_app.
    destruct (usable env n); reflexivity.
Qed.

(** X16. In a run started by [run_yosys_script_loop] the message history
    never holds the system message, since the initial state supplies an
    empty history and the default of [initialize_yosys_game] is not used.
    It holds, in order, the answers of all the calls of the language model
    made so far, and its length is twice the number of calls plus the
    number of answers without script. *)
Theorem history_of_run
    (env : Env) (verilog sdc : str) (limit : Z) (n : nat) :
  exists c h,
    run_yosys_script_loop env verilog sdc limit n = Ok c
    /\ message_history (state c) = Some h
    /\ forallb (fun m => negb (is_system m)) h = true
    /\ ai_contents h = map (llm_invoke env) (seq 0 (llm_calls (world c)))
    /\ List.length h
       = 2 * llm_calls (world c) + unusable_count env (llm_calls (world c)).
Proof.
  destruct (run_history env verilog sdc limit n) as (c & h & Hrun & _ & Hh & Hok).
  exists c, h. split; [exact Hrun|]. split; [exact Hh|].
  split; [exact (history_ok_no_system _ _ _ Hok)|].
  split; [exact (history_ok_answers _ _ _ Hok)|].
  exact (history_ok_length _ _ _ Hok).
Qed.

(** ** The report of the history *)

Lemma history_report_from_app (i : nat) (a b : list Message) :
  history_report_from i (a ++ b)
  = history_report_from i a ++ history_report_from (i + List.length a) b.
Proof.
  revert i; induction a as [|m a IH]; intros i; simpl.
  - now rewrite Nat.add_0_r.
  - rewrite IH, <- app_assoc. do 3 f_equal. lia.
Qed.

Lemma is_prompt_not_please (p : Content) :
  is_prompt p = true -> starts_with_please p = false.
Proof. destruct p; simpl; [discriminate | reflexivity | reflexivity]. Qed.

Lemma corrective_starts_with_please :
  starts_with_please corrective_prompt = true.
Proof. vm_compute. reflexivity. Qed.

Lemma history_ok_labels (env : Env) (n : nat) (h : list Message) :
  history_ok env n h ->
  map label (history_report h) = flat_map (labels_of_call env) (seq 0 n).
Proof.
  unfold history_report. revert h; induction n as [|n IH]; intros h.
  - simpl. intros ->. reflexivity.
  - intros (h0 & p & H0 & Hp & ->).
    rewrite history_report_from_app, map_app, (IH h0 H0), seq_S, flat_map_app.
    f_equal. rewrite !Nat.add_0_l, (history_ok_length _ _ _ H0).
    cbn [flat_map]. rewrite app_nil_r. unfold labels_of_call.
    cbn [app history_report_from]. rewrite (is_prompt_not_please p Hp).
    replace (S (2 * n + unusable_count env n))
      with (2 * n + unusable_count env n + 1) by lia.
    destruct (usable env n); cbn [app history_report_from map label];
      rewrite ?corrective_starts_with_please; reflexivity.
Qed.

(** X17. In the history that [run_yosys_script_loop] prints, the request
    and the script of the call number [k] (from 0) of the language model
    are headed "Iteration (2k+u) div 2 + 1" and "Iteration (2k+u+1) div 2
    + 1", where [u] is the number of earlier answers without script, and
    the corrective messages are not printed.  So the headings are the
    round numbers 1, 1, 2, 2, ... when every answer holds a script, and
    they drift after an answer that holds none. *)
Theorem history_headings
    (env : Env) (verilog sdc : str) (limit : Z) (n : nat) :
  exists c h,
    run_yosys_script_loop env verilog sdc limit n = Ok c
    /\ message_history (state c) = Some h
    /\ map label (history_report h)
       = flat_map (labels_of_call env) (seq 0 (llm_calls (world c)))
    /\ ((forall k, usable env k = true) ->
        map label (history_report h)
        = flat_map (fun k => [k + 1; k + 1]) (seq 0 (llm_calls (world c)))).
Proof.
  destruct (run_history env verilog sdc limit n) as (c & h & Hrun & _ & Hh & Hok).
  exists c, h. split; [exact Hrun|]. split; [exact Hh|].
  pose proof (history_ok_labels _ _ _ Hok) as Hl. split; [exact Hl|].
  intros Hall. rewrite Hl. apply flat_map_ext. intros k.
  unfold labels_of_call.
  assert (Hu : unusable_count env k = 0).
  { pose proof (usable_unusable env k) as Hs.
    rewrite usable_count_all in Hs by (intros; apply Hall). lia. }
  rewrite Hu, Nat.add_0_r.
  replace (2 * k) with (k * 2) by lia.
  rewrite Nat.div_mul by lia.
  rewrite Nat.div_add_l by lia. simpl (1 / 2). rewrite Nat.add_0_r.
  reflexivity.
Qed.

Lemma history_headings_witness :
  exists c h,
    run_yosys_script_loop env_third_time (py "counter.v") (py "counter.sdc") 3 9
      = Ok c
    /\ message_history (state c) = Some h
    /\ map label (history_report h) = [1; 1; 2; 2; 3; 3].
Proof.
  destruct (history_headings env_third_time (py "counter.v") (py "counter.sdc")
              3 9) as (c & h & Hrun & Hh & _ & Hall).
  exists c, h. split; [exact Hrun|]. split; [exact Hh|].
  rewrite Hall.
  - vm_compute in Hrun. injection Hrun as <-. reflexivity.
  - intros k. unfold usable, env_third_time, answers. simpl.
    destruct k; vm_compute; reflexivity.
Defined.

(** The headings drift: after a first answer without script, the second
    request is headed 2 and its script 3. *)
Example history_headings_drift :
  exists c h,
    run_yosys_script_loop (env_failing [py "no script here"])
      (py "counter.v") (py "counter.sdc") 1 6 = Ok c
    /\ message_history (state c) = Some h
    /\ map label (history_report h) = [1; 1; 2; 3].
Proof.
  eexists. eexists. split; [vm_compute; reflexivity|].
  split; [reflexivity|]. vm_compute. reflexivity.
Qed.

(** ** What is fed back *)

Lemma step_fed (env : Env) (verilog sdc : str) (limit : Z) (c c' : Config) :
  Inv env limit c -> fed env verilog sdc c ->
  step env c = Ok c' -> fed env verilog sdc c'.
Proof.
  intros H Hfed. open_config c H. unfold fed, recorded in *. simpl in *.
  destruct Hfed as (Hv & Hs & Hcs & Hrec).
  injection Hv as ->. injection Hs as ->. injection Hcs as ->.
  unfold node_inv in Hnode; simpl in Hnode. destruct nd.
  - destruct Hnode as (Hgo & Hcalls & Hbound). injection Hgo as ->. subst.
    unfold step, generate_yosys_script; simpl. fold (usable env llm).
    unfold usable at 1.
    destruct (truthy (extract_script_from_text (llm_invoke env llm))) eqn:U;
      destruct (Z.of_nat (usable_count env llm) =? 0)%Z;
      simpl; intros Hstep; injection Hstep as <-; simpl;
      unfold usable; rewrite U; auto.
  - destruct Hnode as (Hgo & Hcalls & Hbound). injection Hgo as ->. subst.
    unfold step, execute_yosys_script, try_execute; simpl.
    destruct (temp_file env exe) as [|[|msg]]; simpl;
      [destruct (subprocess_run env exe) as [so se| |rc so se|[|msg]]; simpl|..];
      intros Hstep; injection Hstep as <-; simpl;
      (repeat split; auto); eexists; eexists; repeat split.
  - destruct Hnode as (Hgo & Hfrom & Hcalls & Hbound). injection Hgo as ->. subst.
    unfold step, evaluate_execution, should_continue_yosys; simpl.
    destruct o1 as [[| | | |]|]; try discriminate Hfrom; simpl;
      try destruct (Z.of_nat (usable_count env llm) >=? limit)%Z; simpl;
      intros Hstep; injection Hstep as <-; simpl; auto.
  - unfold step; simpl. intros Hstep; injection Hstep as <-. simpl. auto.
Qed.

Lemma run_fed (env : Env) (verilog sdc : str) (limit : Z) (n : nat) :
  exists c, run_yosys_script_loop env verilog sdc limit n = Ok c
            /\ Inv env limit c /\ fed env verilog sdc c.
Proof.
  induction n as [|n (c & Hrun & Hinv & Hfed)].
  - exists (start verilog sdc limit).
    split; [reflexivity|]. split; [apply Inv_start|].
    unfold fed. simpl. auto.
  - destruct (step_inv env limit c Hinv) as (c' & Hs & Hinv').
    exists c'. split; [now rewrite (run_S_last _ _ _ _ _ _ Hrun)|].
    split; [exact Hinv'|]. exact (step_fed _ _ _ _ _ _ Hinv Hfed Hs).
Qed.

(** X18. In a run the current script is always the script extracted from
    the most recent answer of the language model that held one, and the
    empty script before any did; so that is the script written to the
    temporary file and executed, also in a round whose answer held no
    script.  The paths given to [run_yosys_script_loop] are never
    changed. *)
Theorem current_script_is_latest
    (env : Env) (verilog sdc : str) (limit : Z) (n : nat) :
  exists c,
    run_yosys_script_loop env verilog sdc limit n = Ok c
    /\ current_script (state c)
       = Some (latest_script env (llm_calls (world c)))
    /\ verilog_path (state c) = Some verilog
    /\ sdc_path (state c) = Some sdc.
Proof.
  destruct (run_fed env verilog sdc limit n) as (c & Hrun & _ & Hv & Hs & Hcs & _).
  exists c. auto.
Qed.

(** The prompt of a generation step of a run. *)
Lemma step_generate_prompt (env : Env) (verilog sdc : str) (limit : Z)
    (c c' : Config) :
  Inv env limit c -> fed env verilog sdc c ->
  node c = generate_node -> step env c = Ok c' ->
  exists h,
    message_history (state c) = Some h
    /\ message_history (state c')
       = Some (h ++ [HumanMessage
                       (expected_prompt env verilog sdc (state c)
                          (llm_calls (world c)));
                     AIMessage (llm_invoke env (llm_calls (world c)))]
                 ++ (if usable env (llm_calls (world c)) then []
                     else [HumanMessage corrective_prompt])).
Proof.
  intros H Hfed Hn. open_config c H. unfold fed, recorded in Hfed.
  simpl in Hn, Hfed. subst.
  destruct Hfed as (Hv & Hs & Hcs & Hrec).
  injection Hv as ->. injection Hs as ->. injection Hcs as ->.
  unfold node_inv in Hnode; simpl in Hnode.
  destruct Hnode as (Hgo & Hcalls & Hbound). injection Hgo as ->. subst.
  unfold step, generate_yosys_script, expected_prompt; simpl.
  assert (Hz : (Z.of_nat (usable_count env llm) =? 0)%Z
               = (usable_count env llm =? 0)).
  { destruct (usable_count env llm); reflexivity. }
  rewrite Hz. unfold usable.
  destruct (usable_count env llm =? 0) eqn:E.
  - destruct (truthy (extract_script_from_text (llm_invoke env llm)));
      simpl; intros Hstep; injection Hstep as <-; simpl;
      eexists; (split; [reflexivity|]); rewrite <- !app_assoc; reflexivity.
  - destruct Hrec as [H0 | (script & log & Hc & Hl & He & Hll)].
    { subst llm. discriminate. }
    injection Hc as <-. injection Hl as ->. injection He as ->.
    injection Hll as ->.
    destruct (truthy (extract_script_from_text (llm_invoke env llm)));
      simpl; intros Hstep; injection Hstep as <-; simpl;
      eexists; (split; [reflexivity|]); rewrite <- !app_assoc; reflexivity.
Qed.

(** X19. In a run, the prompt of each generation step is the first
    template as long as no answer has held a script, whatever the
    executions of the empty script gave; afterwards it is the refinement
    template, and carries the script executed last, the log of that
    execution and the error details of the state. *)
Theorem prompts_feed_back
    (env : Env) (verilog sdc : str) (limit : Z) (n : nat) (c : Config) :
  run_yosys_script_loop env verilog sdc limit n = Ok c ->
  node c = generate_node ->
  exists c' h,
    run_yosys_script_loop env verilog sdc limit (S n) = Ok c'
    /\ message_history (state c) = Some h
    /\ message_history (state c')
       = Some (h ++ [HumanMessage
                       (expected_prompt env verilog sdc (state c)
                          (llm_calls (world c)));
                     AIMessage (llm_invoke env (llm_calls (world c)))]
                 ++ (if usable env (llm_calls (world c)) then []
                     else [HumanMessage corrective_prompt]))
    /\ (llm_calls (world c) = 0 \/ recorded (state c)).
Proof.
  intros Hrun Hn.
  destruct (run_fed env verilog sdc limit n) as (c0 & Hrun0 & Hinv & Hfed).
  assert (c0 = c) by congruence. subst c0.
  destruct (step_inv env limit c Hinv) as (c' & Hs & _).
  destruct (step_generate_prompt _ _ _ _ _ _ Hinv Hfed Hn Hs) as (h & Hh & Hh').
  exists c', h. split; [now rewrite (run_S_last _ _ _ _ _ _ Hrun)|].
  split; [exact Hh|]. split; [exact Hh'|].
  destruct Hfed as (_ & _ & _ & Hrec). now rewrite Hn in Hrec.
Qed.

Lemma prompts_feed_back_witness :
  exists c' h,
    run_yosys_script_loop (env_failing []) (py "counter.v") (py "counter.sdc")
      2 4 = Ok c'
    /\ message_history (state c') = Some h
    /\ nth_error h 2
       = Some (HumanMessage
                 (RefinePrompt (Some (py "synth"))
                    (Some (py "Yosys execution failed with return code 1"
                           ++ newline :: newline :: py "STDOUT:" ++ newline ::
                           newline :: py "STDERR:" ++ newline ::
                           py "ERROR: syntax error" ++ [newline]))
                    (py "Return code: 1, Error: ERROR: syntax error")
                    (py "counter.v") (py "counter.sdc") [])).
Proof.
  destruct (run_inv (env_failing []) (py "counter.v") (py "counter.sdc") 2 3)
    as (c & Hrun & _).
  destruct (prompts_feed_back (env_failing []) (py "counter.v")
              (py "counter.sdc") 2 3 c Hrun) as (c' & h & Hrun' & Hh & Hh' & _).
  - vm_compute in Hrun. injection Hrun as <-. reflexivity.
  - eexists. eexists. split; [exact Hrun'|]. split; [exact Hh'|].
    vm_compute in Hrun. injection Hrun as <-.
    vm_compute in Hh. injection Hh as <-. vm_compute. reflexivity.
Defined.

(** ** Temporary files, without outer failure *)

(** X20. When no execution leaves through an outer handler after writing
    its file (that is, when [yosys] can be started and no unexpected
    exception occurs), no temporary script file exists in any
    configuration of the run: success, timeout and non-zero exit status
    all remove the file. *)
Theorem no_file_left_without_outer_failure
    (env : Env) (verilog sdc : str) (limit : Z) (n : nat) :
  (forall k, leaves_file env k = false) ->
  exists c, run_yosys_script_loop env verilog sdc limit n = Ok c
            /\ tmp_files (world c) = [].
Proof. apply files_removed. Qed.

Lemma no_file_left_without_outer_failure_witness :
  exists c,
    run_yosys_script_loop (env_failing []) (py "counter.v") (py "counter.sdc")
      2 6 = Ok c
    /\ tmp_files (world c) = [].
Proof.
  apply (no_file_left_without_outer_failure (env_failing [])).
  intros k. reflexivity.
Defined.

(** ** The graph on a state with the paths only *)

(** X21. When the graph is entered with a dictionary that holds only the
    two paths, the Verilog path not empty, the first generation step does
    not raise: it fills the defaults, a limit of 5 among them, derives the
    output file name, and the history it leaves starts with the system
    message, followed by the first prompt, which names the derived output
    file, and the answer. *)
Theorem first_step_from_paths_only
    (env : Env) (verilog sdc : str) :
  verilog <> [] ->
  exists c' rest,
    step env (mkConfig generate_node (paths_only verilog sdc) no_world) = Ok c'
    /\ node c' = execute_node
    /\ max_iterations (state c') = Some 5%Z
    /\ game_over (state c') = Some false
    /\ output_file (state c') = Some (derived_output_file verilog)
    /\ iteration (state c') = Some (if usable env 0 then 1%Z else 0%Z)
    /\ message_history (state c')
       = Some (SystemMessage system_prompt
               :: HumanMessage
                    (FirstPrompt verilog sdc (derived_output_file verilog))
               :: AIMessage (llm_invoke env 0) :: rest)
    /\ full (state c') = true.
Proof.
  intros Hv. destruct verilog as [|ch p]; [congruence|].
  unfold step, generate_yosys_script. rewrite initialize_closed_form.
  simpl. unfold usable.
  destruct (truthy (extract_script_from_text (llm_invoke env 0)));
    simpl; eexists; eexists; (split; [reflexivity|]); simpl;
    repeat split.
Qed.

Lemma first_step_from_paths_only_witness :
  exists c',
    step env_succeeding
      (mkConfig generate_node
         (paths_only (py "yosys_test/counter.v") (py "counter.sdc")) no_world)
    = Ok c'
    /\ output_file (state c') = Some (py "counter_synthesized_netlist.v")
    /\ max_iterations (state c') = Some 5%Z.
Proof.
  destruct (first_step_from_paths_only env_succeeding
              (py "yosys_test/counter.v") (py "counter.sdc"))
    as (c' & rest & Hs & _ & Hmx & _ & Hout & _).
  - vm_compute. discriminate.
  - exists c'. split; [exact Hs|]. split; [|exact Hmx].
    rewrite Hout. vm_compute. reflexivity.
Defined.
